(** * TradeHub account service: a shallow embedding of [app.py]

    The development models the account / session / verification slice of
    the Flask backend: the user list kept in [data.json], the three
    process-wide dictionaries ([CODE_STORE], [VERIFIED_TOKENS],
    [PENDING_EMAIL_CHANGES]), the session principal, and the request
    handlers working on them.

    Conventions.
    - Text is [string]; one character is one [ascii].  Only the ASCII
      white space and digit classes of Python's [str.strip] and
      [str.isdigit] are covered.
    - A JSON object of the user list is a record of optional fields
      ([None]: key absent or [null]); elements of the list that are not
      objects are kept as [NotDict].
    - [time.time()] is an input of the handler that calls it, one
      argument per call, in the order of the calls; readings are
      rationals.
    - [random.choice], the salt of [generate_password_hash] and the bytes
      of [secrets.token_urlsafe] are inputs as well.
    - A request body is a JSON object whose values are strings.  (A
      truthy value of another type makes [.strip()] raise at the top of
      the handler, before any state is touched; the handler then answers
      400.)
    - [data.json] is kept as the list [_read_users_list] returns; file
      input/output is assumed to succeed, so the [except] branches of the
      handlers are not reachable in the model. *)

From Stdlib Require Import Ascii String QArith Lqa.
From stdpp Require Import gmap strings list fin_maps.

Local Open Scope string_scope.

(** ** Python string primitives *)

Module Py.

(** [str.isspace] on ASCII: TAB, LF, VT, FF, CR, FS, GS, RS, US, SPACE. *)
Definition isspace (c : ascii) : bool :=
  let n := nat_of_ascii c in
  ((9 <=? n)%nat && (n <=? 13)%nat) || ((28 <=? n)%nat && (n <=? 32)%nat).

Fixpoint lstrip (s : string) : string :=
  match s with
  | EmptyString => EmptyString
  | String c s' => if isspace c then lstrip s' else s
  end.

Fixpoint rstrip (s : string) : string :=
  match s with
  | EmptyString => EmptyString
  | String c s' =>
      match rstrip s' with
      | EmptyString => if isspace c then EmptyString else String c EmptyString
      | r => String c r
      end
  end.

(** [s.strip()] *)
Definition strip (s : string) : string := rstrip (lstrip s).

(** [c.isdigit()] for one ASCII character. *)
Definition isdigit_char (c : ascii) : bool :=
  let n := nat_of_ascii c in (48 <=? n)%nat && (n <=? 57)%nat.

Fixpoint all_chars (p : ascii -> bool) (s : string) : bool :=
  match s with
  | EmptyString => true
  | String c s' => p c && all_chars p s'
  end.

(** [s.isdigit()]: false on the empty string. *)
Definition isdigit (s : string) : bool :=
  match s with
  | EmptyString => false
  | _ => all_chars isdigit_char s
  end.

(** Truthiness of a string: [bool(s)]. *)
Definition truthy (s : string) : bool :=
  match s with EmptyString => false | _ => true end.

(** [(payload.get(key) or '').strip()] for a field that is absent
    ([None]) or a string. *)
Definition field (v : option string) : string := strip (default "" v).

(** [string.ascii_letters], [string.digits]. *)
Definition ascii_lowercase : string := "abcdefghijklmnopqrstuvwxyz".
Definition ascii_uppercase : string := "ABCDEFGHIJKLMNOPQRSTUVWXYZ".
Definition ascii_letters : string := ascii_lowercase +:+ ascii_uppercase.
Definition digits : string := "0123456789".

(** [random.choice(seq)]: the element at a drawn index; the draw [r] is
    reduced into range as [_randbelow(len(seq))] does. *)
Definition choice (seq : string) (r : nat) : ascii :=
  nth (r mod String.length seq) (list_ascii_of_string seq) "000"%char.

Definition isalpha_char (c : ascii) : bool :=
  let n := nat_of_ascii c in
  ((65 <=? n)%nat && (n <=? 90)%nat) || ((97 <=? n)%nat && (n <=? 122)%nat).

Definition isalnum_char (c : ascii) : bool := isalpha_char c || isdigit_char c.

End Py.

(** ** Data model *)

(** One object of the user list.  The program writes the keys [email],
    [pass], [name], [email_changed], [name_changed] and [code]; records
    created by [api_login_google] or found in an older file lack some. *)
Record user := User {
  u_email : option string;
  u_pass : option string;
  u_name : option string;
  u_email_changed : option bool;
  u_name_changed : option bool;
  u_code : option string
}.

(** An element of the JSON array: an object, or anything else (the
    program tests [isinstance(u, dict)] before it reads a key). *)
Inductive entry := Dict (u : user) | NotDict.

#[global] Instance user_eq_dec : EqDecision user.
Proof. solve_decision. Defined.
#[global] Instance entry_eq_dec : EqDecision entry.
Proof. solve_decision. Defined.

(** [u[key] = v] for the keys the handlers assign. *)
Definition set_email (v : string) (u : user) : user :=
  User (Some v) (u_pass u) (u_name u) (u_email_changed u) (u_name_changed u) (u_code u).
Definition set_pass (v : string) (u : user) : user :=
  User (u_email u) (Some v) (u_name u) (u_email_changed u) (u_name_changed u) (u_code u).
Definition set_name (v : string) (u : user) : user :=
  User (u_email u) (u_pass u) (Some v) (u_email_changed u) (u_name_changed u) (u_code u).
Definition set_email_changed (v : bool) (u : user) : user :=
  User (u_email u) (u_pass u) (u_name u) (Some v) (u_name_changed u) (u_code u).
Definition set_name_changed (v : bool) (u : user) : user :=
  User (u_email u) (u_pass u) (u_name u) (u_email_changed u) (Some v) (u_code u).
Definition set_code (v : string) (u : user) : user :=
  User (u_email u) (u_pass u) (u_name u) (u_email_changed u) (u_name_changed u) (Some v).

(** [u.setdefault(key, v)] for the three keys it is used with.  (On a
    key present with [null] Python keeps [null]; the model writes [v],
    which has the same truth value.) *)
Definition setdefault_name (v : string) (u : user) : user :=
  match u_name u with Some _ => u | None => set_name v u end.
Definition setdefault_email_changed (v : bool) (u : user) : user :=
  match u_email_changed u with Some _ => u | None => set_email_changed v u end.
Definition setdefault_name_changed (v : bool) (u : user) : user :=
  match u_name_changed u with Some _ => u | None => set_name_changed v u end.

(** Truthiness of [u.get('code')], [u.get('email_changed')], ... *)
Definition truthy_str (v : option string) : bool :=
  match v with Some s => Py.truthy s | None => false end.
Definition truthy_flag (v : option bool) : bool := default false v.

(** Entries of the three in-memory dictionaries. *)
Record code_entry := CodeEntry { ce_code : string; ce_exp : Q }.
Record token_entry := TokenEntry { te_token : string; te_exp : Q }.
Record pending_entry :=
  PendingEntry { pe_new_email : string; pe_code : string; pe_exp : Q }.

(** Every entry carries the key ['exp']. *)
Class HasExp (A : Type) := exp : A -> Q.
#[global] Instance code_entry_exp : HasExp code_entry := ce_exp.
#[global] Instance token_entry_exp : HasExp token_entry := te_exp.
#[global] Instance pending_entry_exp : HasExp pending_entry := pe_exp.

(** [x < y] on clock readings, as a boolean. *)
Definition Qltb (x y : Q) : bool := negb (Qle_bool y x).

Definition CODE_TTL_SECONDS : Q := 5 * 60.
Definition TOKEN_TTL_SECONDS : Q := 5 * 60.

(** The state the handlers share: the content of [data.json], the three
    module-level dictionaries and the session of the client. *)
Record World := MkWorld {
  data_file : list entry;
  CODE_STORE : gmap string code_entry;
  VERIFIED_TOKENS : gmap string token_entry;
  PENDING_EMAIL_CHANGES : gmap string pending_entry;
  session : gmap string string
}.

Definition with_data_file (v : list entry) (w : World) : World :=
  MkWorld v (CODE_STORE w) (VERIFIED_TOKENS w) (PENDING_EMAIL_CHANGES w) (session w).
Definition with_CODE_STORE (v : gmap string code_entry) (w : World) : World :=
  MkWorld (data_file w) v (VERIFIED_TOKENS w) (PENDING_EMAIL_CHANGES w) (session w).
Definition with_VERIFIED_TOKENS (v : gmap string token_entry) (w : World) : World :=
  MkWorld (data_file w) (CODE_STORE w) v (PENDING_EMAIL_CHANGES w) (session w).
Definition with_PENDING_EMAIL_CHANGES (v : gmap string pending_entry) (w : World) : World :=
  MkWorld (data_file w) (CODE_STORE w) (VERIFIED_TOKENS w) v (session w).
Definition with_session (v : gmap string string) (w : World) : World :=
  MkWorld (data_file w) (CODE_STORE w) (VERIFIED_TOKENS w) (PENDING_EMAIL_CHANGES w) v.

(** The JSON body of a response, and the response with its status. *)
Inductive body :=
| Ok
| OkToken (token : string)
| Fail
| FailMsg (error : string)
| Exists (b : bool)
| Me (email name : string) (email_changed name_changed : bool) (code : string).

Record response := Response { payload : body; status : nat }.

(** [jsonify(b)] alone answers 200. *)
Definition jsonify (b : body) : response := Response b 200.

(** A JSON request body whose values are strings. *)
Abbreviation request := (gmap string string).

(** ** User store *)

Definition _read_users_list (w : World) : list entry := data_file w.
Definition _write_users_list (users : list entry) (w : World) : World :=
  with_data_file users w.

(** [_find_user]: the first object whose [email] equals the argument; the
    result is a reference into the list, kept as the position together
    with the object found there. *)
Fixpoint find_user_from (i : nat) (users : list entry) (email : string)
  : option (nat * user) :=
  match users with
  | [] => None
  | Dict u :: rest =>
      if decide (u_email u = Some email) then Some (i, u)
      else find_user_from (S i) rest email
  | NotDict :: rest => find_user_from (S i) rest email
  end.

Definition _find_user (users : list entry) (email : string) : option (nat * user) :=
  find_user_from 0 users email.

(** [isinstance(u, dict) and u.get('email') == email] *)
Definition has_email (email : string) (e : entry) : bool :=
  match e with
  | Dict u => bool_decide (u_email u = Some email)
  | NotDict => false
  end.

(** [{u.get('code') for u in users if isinstance(u, dict) and u.get('code')}] *)
Definition code_of (e : entry) : option string :=
  match e with
  | Dict u => if truthy_str (u_code u) then u_code u else None
  | NotDict => None
  end.

Definition existing_codes (users : list entry) : gset string :=
  list_to_set (omap code_of users).

(** One round of the loop of [_generate_unique_code]: the draws
    [rnd p] (first character) and [rnd (p + 1)], ..., [rnd (p + length - 1)]
    (the [length - 1] others) give the candidate. *)
Definition candidate (rnd : nat -> nat) (p length : nat) : string :=
  let alphabet := Py.ascii_letters +:+ Py.digits in
  let first := Py.choice Py.ascii_letters (rnd p) in
  let rest := (fun j => Py.choice alphabet (rnd (p + 1 + j))) <$> seq 0 (length - 1) in
  String first (string_of_list_ascii rest).

(** The form of a user code: a letter, then six letters or digits. *)
Definition code_shape (code : string) : bool :=
  match code with
  | EmptyString => false
  | String first rest =>
      Py.isalpha_char first && (String.length rest =? 6)%nat
      && Py.all_chars Py.isalnum_char rest
  end.

(** [_generate_unique_code]: [while True] is bounded by [fuel]; [None]
    means the loop has not left within [fuel] rounds.  The second
    component is the position in the random source after the call. *)
Fixpoint _generate_unique_code (fuel : nat) (rnd : nat -> nat) (p : nat)
    (existing : gset string) (length : nat) : option (string * nat) :=
  match fuel with
  | O => None
  | S fuel' =>
      let code := candidate rnd p length in
      if decide (code ∈ existing)
      then _generate_unique_code fuel' rnd (p + 1 + (length - 1)) existing length
      else Some (code, p + 1 + (length - 1))
  end.

(** [_ensure_user_code(users, user)]: [user] is [None] or a reference
    into [users]; the assignment [user['code'] = ...] is seen through the
    list. *)
Definition _ensure_user_code (fuel : nat) (rnd : nat -> nat) (p : nat)
    (users : list entry) (user : option (nat * user))
  : option (list entry * bool * nat) :=
  match user with
  | None => Some (users, false, p)
  | Some (i, u) =>
      if truthy_str (u_code u) then Some (users, false, p)
      else
        let existing := existing_codes users in
        '(code, p') ← _generate_unique_code fuel rnd p existing 7;
        Some (<[i := Dict (set_code code u)]> users, true, p')
  end.

(** An element that [_backfill_all_codes] leaves alone: not an object,
    or an object with a code. *)
Definition coded (e : entry) : bool :=
  match e with
  | Dict u => truthy_str (u_code u)
  | NotDict => true
  end.

(** [_backfill_all_codes]: the loop visits the elements in order; each
    visit reads the element as the earlier visits left it. *)
Fixpoint backfill_loop (fuel : nat) (rnd : nat -> nat) (p : nat)
    (users : list entry) (todo : list nat) (changed : bool)
  : option (list entry * bool * nat) :=
  match todo with
  | [] => Some (users, changed, p)
  | i :: todo' =>
      match users !! i with
      | Some (Dict u) =>
          '(users', modified, p') ← _ensure_user_code fuel rnd p users (Some (i, u));
          backfill_loop fuel rnd p' users' todo' (modified || changed)
      | _ => backfill_loop fuel rnd p users todo' changed
      end
  end.

Definition _backfill_all_codes (fuel : nat) (rnd : nat -> nat) (w : World)
  : option World :=
  let users := _read_users_list w in
  '(users, changed, _) ← backfill_loop fuel rnd 0 users (seq 0 (List.length users)) false;
  Some (if changed : bool then _write_users_list users w else w).

(** ** Code and token stores *)

(** One round of the inner loop of [_purge_expired]:
    [if d[k].get('exp', 0) < now: del d[k]].  Every entry the handlers
    store has the key ['exp'], so the default 0 is never used; [k] comes
    from the keys of [d], so [d[k]] is there. *)
Definition purge_step {A} `{HasExp A} (now : Q) (d : gmap string A) (k : string)
  : gmap string A :=
  match d !! k with
  | Some e => if Qltb (exp e) now then delete k d else d
  | None => d
  end.

(** What an entry becomes when its key is visited: nothing when it is
    expired, itself otherwise. *)
Definition visited {A} `{HasExp A} (now : Q) (e : A) : option A :=
  if Qltb (exp e) now then None else Some e.

(** The inner loop, [for k in list(d.keys())], over the keys the
    dictionary has when the loop starts. *)
Definition purge_store {A} `{HasExp A} (now : Q) (d : gmap string A) : gmap string A :=
  foldl (purge_step now) d (elements (dom d)).

(** [_purge_expired]: the outer loop runs over
    [(CODE_STORE, VERIFIED_TOKENS)]. *)
Definition _purge_expired (now : Q) (w : World) : World :=
  with_VERIFIED_TOKENS (purge_store now (VERIFIED_TOKENS w))
    (with_CODE_STORE (purge_store now (CODE_STORE w)) w).

(** ** [secrets.token_urlsafe] *)

Module Secrets.

Definition b64_alphabet : string :=
  "ABCDEFGHIJKLMNOPQRSTUVWXYZabcdefghijklmnopqrstuvwxyz0123456789-_".

Definition b64_char (n : N) : ascii :=
  nth (N.to_nat n) (list_ascii_of_string b64_alphabet) "="%char.

(** The 24-bit value of a group of three bytes. *)
Definition group (a b c : Byte.byte) : N :=
  (Byte.to_N a * 65536 + Byte.to_N b * 256 + Byte.to_N c)%N.

(** [base64.urlsafe_b64encode]: three bytes give four characters; a last
    group of one or two bytes is padded with [=]. *)
Fixpoint urlsafe_b64encode (bs : list Byte.byte) : list ascii :=
  match bs with
  | [] => []
  | [a] =>
      let n := (Byte.to_N a * 16)%N in
      [b64_char (n / 64); b64_char (n mod 64); "="%char; "="%char]
  | [a; b] =>
      let n := (Byte.to_N a * 1024 + Byte.to_N b * 4)%N in
      [b64_char (n / 4096); b64_char ((n / 64) mod 64); b64_char (n mod 64); "="%char]
  | a :: b :: c :: rest =>
      let n := group a b c in
      b64_char (n / 262144) :: b64_char ((n / 4096) mod 64)
        :: b64_char ((n / 64) mod 64) :: b64_char (n mod 64)
        :: urlsafe_b64encode rest
  end.

(** [.rstrip(b'=')] *)
Fixpoint rstrip_pad (cs : list ascii) : list ascii :=
  match cs with
  | [] => []
  | c :: cs' =>
      match rstrip_pad cs' with
      | [] => if Ascii.eqb c "="%char then [] else [c]
      | r => c :: r
      end
  end.

(** [token_bytes(nbytes)]: the next [nbytes] bytes of the system's
    random source. *)
Definition token_bytes (urandom : nat -> Byte.byte) (nbytes : nat) : list Byte.byte :=
  urandom <$> seq 0 nbytes.

Definition token_urlsafe (urandom : nat -> Byte.byte) (nbytes : nat) : string :=
  string_of_list_ascii (rstrip_pad (urlsafe_b64encode (token_bytes urandom nbytes))).




End Secrets.

(** ** [werkzeug.security] *)

(** The two library functions the handlers call.  The salt that
    [generate_password_hash] draws is its first argument here;
    [check_password_hash] answers [None] where the library raises. *)
Class Werkzeug := {
  generate_password_hash : string -> string -> string;
  check_password_hash : string -> string -> option bool
}.

(** ** Request handlers *)

Section Handlers.
Context `{Werkzeug}.

(** [session.get('user_email')] *)
Definition session_get (w : World) : option string := session w !! "user_email".
(** [session['user_email'] = v] *)
Definition session_set (v : string) (w : World) : World :=
  with_session (<["user_email" := v]> (session w)) w.

(** [len(code) != 6 or not code.isdigit()] *)
Definition bad_code (code : string) : bool :=
  negb (String.length code =? 6)%nat || negb (Py.isdigit code).

(** [GET /api/storage] *)
Definition api_get_storage (w : World) : response * World :=
  (Response (FailMsg "not allowed") 404, w).

(** [POST /api/storage]: registration. *)
Definition api_post_storage (salt : string) (rnd : nat -> nat) (fuel : nat)
    (payload : request) (w : World) : option (response * World) :=
  let email := Py.field (payload !! "email") in
  let password := Py.field (payload !! "pass") in
  let name := Py.field (payload !! "name") in
  if negb (Py.truthy email) || negb (Py.truthy password)
  then Some (Response (FailMsg "email and pass are required") 400, w)
  else
    let users := _read_users_list w in
    if existsb (has_email email) users
    then Some (Response (FailMsg "account exists") 409, w)
    else
      let hashed := generate_password_hash salt password in
      let new := User (Some email) (Some hashed) (Some name) (Some false) (Some false) None in
      let users := (users ++ [Dict new])%list in
      '(users, _, _) ← _ensure_user_code fuel rnd 0 users (Some (List.length users - 1, new));
      Some (jsonify Ok, _write_users_list users w).

(** [GET /api/account_exists] *)
Definition api_account_exists (email_arg : option string) (w : World)
  : response * World :=
  let email := Py.field email_arg in
  if negb (Py.truthy email) then (jsonify (Exists false), w)
  else
    let users := _read_users_list w in
    (jsonify (Exists (bool_decide (is_Some (_find_user users email)))), w).

(** The [try: valid = check_password_hash(stored, password)] of
    [api_login], with its [except] branch [valid = (stored == password)]. *)
Definition password_valid (stored password : string) : bool :=
  match check_password_hash stored password with
  | Some b => b
  | None => bool_decide (stored = password)
  end.

(** [POST /api/login] *)
Definition api_login (rnd : nat -> nat) (fuel : nat)
    (payload : request) (w : World) : option (response * World) :=
  let email := Py.field (payload !! "email") in
  let password := Py.field (payload !! "pass") in
  if negb (Py.truthy email) || negb (Py.truthy password)
  then Some (Response Fail 400, w)
  else
    let users := _read_users_list w in
    match _find_user users email with
    | None => Some (Response Fail 401, w)
    | Some (i, u) =>
        '(users, modified, _) ← _ensure_user_code fuel rnd 0 users (Some (i, u));
        let w := if modified : bool then _write_users_list users w else w in
        let stored := default "" (u_pass u) in
        let valid := password_valid stored password in
        if negb valid then Some (Response Fail 401, w)
        else Some (jsonify Ok, session_set email w)
    end.

(** [POST /api/request_code] *)
Definition api_request_code (now_purge now_stamp : Q)
    (data : request) (w : World) : response * World :=
  let email := Py.field (data !! "email") in
  let code := Py.field (data !! "code") in
  if negb (Py.truthy email) || negb (Py.truthy code) || bad_code code
  then (Response Fail 400, w)
  else
    let w := _purge_expired now_purge w in
    let w := with_CODE_STORE
               (<[email := CodeEntry code (now_stamp + CODE_TTL_SECONDS)]> (CODE_STORE w)) w in
    (jsonify Ok, w).

(** [POST /api/verify_code] *)
Definition api_verify_code (now_purge now_check now_stamp : Q)
    (urandom : nat -> Byte.byte) (data : request) (w : World) : response * World :=
  let email := Py.field (data !! "email") in
  let code := Py.field (data !! "code") in
  if negb (Py.truthy email) || negb (Py.truthy code)
  then (Response Fail 400, w)
  else
    let w := _purge_expired now_purge w in
    match CODE_STORE w !! email with
    | None => (Response Fail 400, w)
    | Some entry =>
        if negb (bool_decide (ce_code entry = code)) || Qltb (exp entry) now_check
        then (Response Fail 400, w)
        else
          let token := Secrets.token_urlsafe urandom 24 in
          let w := with_VERIFIED_TOKENS
                     (<[email := TokenEntry token (now_stamp + TOKEN_TTL_SECONDS)]>
                        (VERIFIED_TOKENS w)) w in
          let w := session_set email w in
          let w := with_CODE_STORE (delete email (CODE_STORE w)) w in
          (jsonify (OkToken token), w)
    end.

(** [POST /api/reset_password] *)
Definition api_reset_password (now_purge now_check : Q) (salt : string)
    (data : request) (w : World) : response * World :=
  let email := Py.field (data !! "email") in
  let new_pass := Py.field (data !! "new_pass") in
  let token := Py.field (data !! "token") in
  if negb (Py.truthy email) || negb (Py.truthy new_pass) || negb (Py.truthy token)
  then (Response Fail 400, w)
  else
    let w := _purge_expired now_purge w in
    match VERIFIED_TOKENS w !! email with
    | None => (Response Fail 400, w)
    | Some v =>
        if negb (bool_decide (te_token v = token)) || Qltb (exp v) now_check
        then (Response Fail 400, w)
        else
          let users := _read_users_list w in
          match _find_user users email with
          | None => (Response Fail 404, w)
          | Some (i, u) =>
              let users :=
                <[i := Dict (set_pass (generate_password_hash salt new_pass) u)]> users in
              let w := _write_users_list users w in
              let w := with_VERIFIED_TOKENS (delete email (VERIFIED_TOKENS w)) w in
              (jsonify Ok, w)
          end
    end.

(** [POST /api/request_email_change] *)
Definition api_request_email_change (now_purge now_stamp : Q)
    (data : request) (w : World) : response * World :=
  let current := session_get w in
  if negb (truthy_str current) then (Response Fail 401, w)
  else
    let current_email := default "" current in
    let new_email := Py.field (data !! "new_email") in
    let code := Py.field (data !! "code") in
    if negb (Py.truthy new_email) || negb (Py.truthy code) || bad_code code
    then (Response (FailMsg "invalid input") 400, w)
    else
      let users := _read_users_list w in
      if bool_decide (is_Some (_find_user users new_email))
      then (Response (FailMsg "email exists") 409, w)
      else
        let w := _purge_expired now_purge w in
        let w := with_PENDING_EMAIL_CHANGES
                   (<[current_email :=
                        PendingEntry new_email code (now_stamp + CODE_TTL_SECONDS)]>
                      (PENDING_EMAIL_CHANGES w)) w in
        (jsonify Ok, w).

(** [POST /api/confirm_email_change] *)
Definition api_confirm_email_change (now_purge now_check : Q)
    (data : request) (w : World) : response * World :=
  let current := session_get w in
  if negb (truthy_str current) then (Response Fail 401, w)
  else
    let current_email := default "" current in
    let new_email := Py.field (data !! "new_email") in
    let code := Py.field (data !! "code") in
    if negb (Py.truthy new_email) || negb (Py.truthy code)
    then (Response Fail 400, w)
    else
      let w := _purge_expired now_purge w in
      match PENDING_EMAIL_CHANGES w !! current_email with
      | None => (Response (FailMsg "invalid_or_expired") 400, w)
      | Some entry =>
          if negb (bool_decide (pe_new_email entry = new_email))
             || negb (bool_decide (pe_code entry = code))
             || Qltb (exp entry) now_check
          then (Response (FailMsg "invalid_or_expired") 400, w)
          else
            let users := _read_users_list w in
            if bool_decide (is_Some (_find_user users new_email))
            then (Response (FailMsg "email exists") 409, w)
            else
              match _find_user users current_email with
              | None => (Response Fail 404, w)
              | Some (i, user) =>
                  let user := set_email new_email user in
                  let user := setdefault_email_changed false user in
                  let user := set_email_changed true user in
                  let w := _write_users_list (<[i := Dict user]> users) w in
                  let w := session_set new_email w in
                  let w := with_PENDING_EMAIL_CHANGES
                             (delete current_email (PENDING_EMAIL_CHANGES w)) w in
                  (jsonify Ok, w)
              end
      end.

(** [POST /api/logout] *)
Definition api_logout (w : World) : response * World :=
  (jsonify Ok, with_session (delete "user_email" (session w)) w).

(** [GET /api/me] *)
Definition api_me (rnd : nat -> nat) (fuel : nat) (w : World)
  : option (response * World) :=
  let current := session_get w in
  if negb (truthy_str current) then Some (Response Fail 401, w)
  else
    let email := default "" current in
    let users := _read_users_list w in
    let u := _find_user users email in
    let name := default "" (u ≫= fun r => u_name r.2) in
    let email_changed := truthy_flag (u ≫= fun r => u_email_changed r.2) in
    let name_changed := truthy_flag (u ≫= fun r => u_name_changed r.2) in
    '(users, modified, _) ← _ensure_user_code fuel rnd 0 users u;
    let w := if modified : bool then _write_users_list users w else w in
    let code :=
      default "" (u ≫= fun r => users !! r.1 ≫= fun e =>
                    match e with Dict u' => u_code u' | NotDict => None end) in
    Some (jsonify (Me email name email_changed name_changed code), w).

(** [POST /api/update_profile] *)
Definition api_update_profile (payload : request) (w : World) : response * World :=
  let current := session_get w in
  if negb (truthy_str current) then (Response Fail 401, w)
  else
    let current_email := default "" current in
    let field := Py.field (payload !! "field") in
    let value := Py.field (payload !! "value") in
    if negb (bool_decide (field = "email" ∨ field = "name")) || negb (Py.truthy value)
    then (Response (FailMsg "invalid input") 400, w)
    else
      let users := _read_users_list w in
      match _find_user users current_email with
      | None => (Response Fail 404, w)
      | Some (i, user) =>
          let user := setdefault_name "" user in
          let user := setdefault_email_changed false user in
          let user := setdefault_name_changed false user in
          let users := <[i := Dict user]> users in
          if bool_decide (field = "email") then
            if truthy_flag (u_email_changed user)
            then (Response (FailMsg "email already changed") 403, w)
            else if bool_decide (is_Some (_find_user users value))
                    && negb (bool_decide (value = current_email))
            then (Response (FailMsg "email exists") 409, w)
            else
              let user := set_email_changed true (set_email value user) in
              let w' := session_set value w in
              (jsonify Ok, _write_users_list (<[i := Dict user]> users) w')
          else
            if truthy_flag (u_name_changed user)
            then (Response (FailMsg "name already changed") 403, w)
            else
              let user := set_name_changed true (set_name value user) in
              (jsonify Ok, _write_users_list (<[i := Dict user]> users) w)
      end.

(** [POST /api/login_google] *)
Definition api_login_google (urandom : nat -> Byte.byte) (salt : string)
    (data : request) (w : World) : response * World :=
  let email := Py.field (data !! "email") in
  if negb (Py.truthy email) then (Response Fail 400, w)
  else
    let users := _read_users_list w in
    let w :=
      match _find_user users email with
      | Some _ => w
      | None =>
          let rand_pass := Secrets.token_urlsafe urandom 12 in
          let new := User (Some email) (Some (generate_password_hash salt rand_pass))
                          None None None None in
          _write_users_list (users ++ [Dict new])%list w
      end in
    (jsonify Ok, session_set email w).

End Handlers.

(** ** The operations of the service *)

(** One request, with the inputs the environment gives to its handler. *)
Inductive op :=
| GetStorage
| PostStorage (salt : string) (rnd : nat -> nat) (fuel : nat) (payload : request)
| AccountExists (email : option string)
| Login (rnd : nat -> nat) (fuel : nat) (payload : request)
| RequestCode (now_purge now_stamp : Q) (data : request)
| VerifyCode (now_purge now_check now_stamp : Q) (urandom : nat -> Byte.byte)
    (data : request)
| ResetPassword (now_purge now_check : Q) (salt : string) (data : request)
| RequestEmailChange (now_purge now_stamp : Q) (data : request)
| ConfirmEmailChange (now_purge now_check : Q) (data : request)
| Logout
| GetMe (rnd : nat -> nat) (fuel : nat)
| UpdateProfile (payload : request)
| LoginGoogle (urandom : nat -> Byte.byte) (salt : string) (data : request).

Section Service.
Context `{Werkzeug}.

(** The handler of a request; [None] when code generation has not left
    its loop within the rounds allowed. *)
Definition handle (o : op) (w : World) : option (response * World) :=
  match o with
  | GetStorage => Some (api_get_storage w)
  | PostStorage salt rnd fuel payload => api_post_storage salt rnd fuel payload w
  | AccountExists email => Some (api_account_exists email w)
  | Login rnd fuel payload => api_login rnd fuel payload w
  | RequestCode now_purge now_stamp data =>
      Some (api_request_code now_purge now_stamp data w)
  | VerifyCode now_purge now_check now_stamp urandom data =>
      Some (api_verify_code now_purge now_check now_stamp urandom data w)
  | ResetPassword now_purge now_check salt data =>
      Some (api_reset_password now_purge now_check salt data w)
  | RequestEmailChange now_purge now_stamp data =>
      Some (api_request_email_change now_purge now_stamp data w)
  | ConfirmEmailChange now_purge now_check data =>
      Some (api_confirm_email_change now_purge now_check data w)
  | Logout => Some (api_logout w)
  | GetMe rnd fuel => api_me rnd fuel w
  | UpdateProfile payload => Some (api_update_profile payload w)
  | LoginGoogle urandom salt data => Some (api_login_google urandom salt data w)
  end.

(** A sequence of requests, each on the state the one before has left.
    Between two requests the session may be that of another client:
    [Switch] replaces it. *)
Inductive event := Call (o : op) | Switch (session : gmap string string).

Fixpoint run (events : list event) (w : World) : option World :=
  match events with
  | [] => Some w
  | Call o :: rest => '(_, w') ← handle o w; run rest w'
  | Switch s :: rest => run rest (with_session s w)
  end.

End Service.

(** ** One-time fields across requests *)

(** The name as [api_me] reads it: [u.get('name') or '']. *)
Definition name_of (u : user) : string := default "" (u_name u).



(** ** Pending codes across requests *)

(** What [api_request_code] stores: a non-empty email and a code of six
    digits. *)
Definition code_store_ok (d : gmap string code_entry) : Prop :=
  forall k e, d !! k = Some e -> Py.truthy k = true /\ bad_code (ce_code e) = false.

(** ** A concrete instance and sample states *)

Module Sample.

(** [s.split("$", 1)]: the text before the first [$] and the text after
    it, or [None] when there is no [$]. *)
Fixpoint split_dollar (s : string) : option (string * string) :=
  match s with
  | EmptyString => None
  | String c s' =>
      if Ascii.eqb c "$" then Some (EmptyString, s')
      else '(a, b) ← split_dollar s'; Some (String c a, b)
  end.

(** A stand-in for werkzeug with the shape of the library: a hash is
    [method$salt$digest]; checking splits the stored text, answers false
    when it has fewer than two [$] and raises on an unknown method.  The
    digest of the stand-in is the password itself. *)
Definition werkzeug : Werkzeug := {|
  generate_password_hash salt password := "toy$" +:+ salt +:+ "$" +:+ password;
  check_password_hash stored password :=
    match split_dollar stored with
    | None => Some false
    | Some (method, rest) =>
        match split_dollar rest with
        | None => Some false
        | Some (salt, digest) =>
            if bool_decide (method = "toy") then Some (bool_decide (digest = password))
            else None
        end
    end
|}.

Definition request_of (fields : list (string * string)) : request :=
  list_to_map fields.

(** A random source that draws 0, 1, 2, ...: the first candidate is
    [abcdefg]. *)
Definition rnd : nat -> nat := fun n => n.

(** A byte source that draws the byte 0x41 forever. *)
Definition urandom : nat -> Byte.byte := fun _ => Byte.x41.

Definition empty_world : World := MkWorld [] ∅ ∅ ∅ ∅.

(** A record as [api_post_storage] writes it. *)
Definition alice : user :=
  User (Some "a@x.com") (Some "toy$s1$pw1") (Some "Alice")
       (Some false) (Some false) (Some "Ez34Als").

(** A record as [api_login_google] writes it: no flags and no code. *)
Definition bob : user :=
  User (Some "b@x.com") (Some "toy$s2$pw2") None None None None.

Definition code_req : request :=
  request_of [("email", "a@x.com"); ("code", "123456")].

(** A code for [a@x.com] is pending and expires at 300. *)
Definition pending_code_world : World :=
  MkWorld [] {[ "a@x.com" := CodeEntry "123456" 300 ]} ∅ ∅ ∅.



Definition users_world : World := MkWorld [Dict alice; Dict bob] ∅ ∅ ∅ ∅.

Definition register_req : request :=
  request_of [("email", " a@x.com "); ("pass", "pw1"); ("name", "Alice")].


Definition bad_login_req : request :=
  request_of [("email", "b@x.com"); ("pass", "wrong")].

Definition login_req : request :=
  request_of [("email", "a@x.com"); ("pass", "pw1")].

Definition to_b_req : request :=
  request_of [("field", "email"); ("value", "b@x.com")].

Definition to_c_req : request :=
  request_of [("new_email", "c@x.com"); ("code", "123456")].

(** Register [a@x.com], log in, and change the email to [b@x.com] with
    [api_update_profile]. *)
Definition first_email_change : option (response * World) :=
  '(_, w1) ← @api_post_storage werkzeug "s1" rnd 5 register_req empty_world;
  '(_, w2) ← @api_login werkzeug rnd 5 login_req w1;
  Some (api_update_profile to_b_req w2).

(** Then change it again, to [c@x.com], with the two-step flow. *)
Definition second_email_change : option (response * World) :=
  '(_, w3) ← first_email_change;
  let '(_, w4) := api_request_email_change 0 0 to_c_req w3 in
  Some (api_confirm_email_change 10 10 to_c_req w4).

(** [alice] is logged in. *)
Definition session_world : World :=
  MkWorld [Dict alice] ∅ ∅ ∅ {[ "user_email" := "a@x.com" ]}.

Definition other_code_req : request :=
  request_of [("email", "d@x.com"); ("code", "654321")].

(** An email change is requested at time 0 and never confirmed; at time
    1000 another client asks for a code, which runs the purge. *)
Definition stale_pending : response * World :=
  let '(_, w1) := api_request_email_change 0 0 to_c_req session_world in
  api_request_code 1000 1000 other_code_req w1.

End Sample.

(** ** How requests rewrite the user list *)

(** The code of an object, when it has one: [u.get('code')] if truthy. *)
Definition live_code (u : user) : option string :=
  if truthy_str (u_code u) then u_code u else None.

(** No two objects of the list agree on the key [f]. *)
Definition unique_on (f : user -> option string) (users : list entry) : Prop :=
  forall i j u1 u2 s,
    users !! i = Some (Dict u1) -> users !! j = Some (Dict u2) ->
    f u1 = Some s -> f u2 = Some s -> i = j.

(** One rewriting of the user list by a handler, with what the handler
    has tested before it.  The boolean tells whether a stored password is
    replaced. *)
Inductive list_step : bool -> list entry -> list entry -> Prop :=
| step_none users : list_step false users users
| step_new users u e :
    u_email u = Some e -> _find_user users e = None ->
    (forall c, live_code u = Some c -> c ∉ existing_codes users) ->
    list_step false users (users ++ [Dict u])%list
| step_code users j u c :
    users !! j = Some (Dict u) -> truthy_str (u_code u) = false ->
    code_shape c = true -> c ∉ existing_codes users ->
    list_step false users (<[j := Dict (set_code c u)]> users)
| step_pass users j u pw :
    users !! j = Some (Dict u) ->
    list_step true users (<[j := Dict (set_pass pw u)]> users)
| step_email users j u u' e :
    users !! j = Some (Dict u) ->
    _find_user users e = None \/ u_email u = Some e ->
    u_email u' = Some e -> u_email_changed u' = Some true ->
    u_code u' = u_code u -> u_pass u' = u_pass u -> name_of u' = name_of u ->
    truthy_flag (u_name_changed u') = truthy_flag (u_name_changed u) ->
    list_step false users (<[j := Dict u']> users)
| step_name users j u u' :
    users !! j = Some (Dict u) -> truthy_flag (u_name_changed u) = false ->
    u_email u' = u_email u -> u_code u' = u_code u -> u_pass u' = u_pass u ->
    u_name_changed u' = Some true ->
    truthy_flag (u_email_changed u') = truthy_flag (u_email_changed u) ->
    list_step false users (<[j := Dict u']> users).

(** ** Pages *)

(** What a page route answers: [redirect(location)] or
    [send_from_directory(BASE_DIR, name)]. *)
Inductive page := Redirect (location : string) | SendFile (name : string).

(** [GET /] and [GET /index.html] *)
Definition root : page := Redirect "/main".
Definition index_alias : page := Redirect "/main".
(** [GET /main] *)
Definition main_page : page := SendFile "index.html".
(** [GET /market.html]: the server-side gate. *)
Definition market_protected (w : World) : page :=
  if negb (truthy_str (session w !! "user_email"))
  then Redirect "/main?login_required=1"
  else SendFile "market.html".
(** [GET /<path:path>] *)
Definition static_proxy (path : string) : page := SendFile path.

(** The form of a candidate of any length: a letter, then letters or
    digits. *)
Definition letter_then_alnum (code : string) : bool :=
  match code with
  | EmptyString => false
  | String first rest =>
      Py.isalpha_char first && Py.all_chars Py.isalnum_char rest
  end.

(** ** More sample states *)

Module Demo.

(** A list as an older [data.json] may hold it: a record with a code, an
    element that is not an object, and two records without a code. *)
Definition legacy_users : list entry :=
  [Dict Sample.alice; NotDict; Dict Sample.bob;
   Dict (User (Some "c@x.com") (Some "pw3") None None None (Some ""))].

Definition legacy_world : World := MkWorld legacy_users ∅ ∅ ∅ ∅.

(** A day of requests on an empty service: a registration, a login, a
    change of name, a Google login of somebody else, a change of email.
    The code flow and a reset follow, then [/api/me] for the new
    account. *)
Definition day : list event :=
  [ Call (PostStorage "s1" Sample.rnd 5 Sample.register_req);
    Call (Login Sample.rnd 5 Sample.login_req);
    Call (UpdateProfile (Sample.request_of [("field", "name"); ("value", "Al")]));
    Call (LoginGoogle Sample.urandom "s2" (Sample.request_of [("email", "g@x.com")]));
    Call (GetMe (fun n => n + 7) 5);
    Call (UpdateProfile (Sample.request_of [("field", "email"); ("value", "h@x.com")]));
    Switch ∅;
    Call (RequestCode 0 0 Sample.code_req);
    Call (VerifyCode 10 10 10 Sample.urandom Sample.code_req);
    Call (ResetPassword 20 20 "s3"
            (Sample.request_of [("email", "a@x.com"); ("new_pass", "pw9");
                                ("token", "QUFBQUFBQUFBQUFBQUFBQUFBQUFBQUFB")])) ].



(** [bob], who has no code, is logged in. *)
Definition bob_session : World :=
  MkWorld [Dict Sample.alice; Dict Sample.bob] ∅ ∅ ∅ {[ "user_email" := "b@x.com" ]}.

(** A principal that the code flow has set, with no record. *)
Definition ghost_session : World :=
  MkWorld [] ∅ ∅ ∅ {[ "user_email" := "a@x.com" ]}.


Definition carol : user :=
  User (Some "c@x.com") (Some "toy$s4$pw4") (Some "Carol")
       (Some false) (Some false) (Some "Qq11111").

(** [alice] has asked for [c@x.com]; [carol] has registered it since. *)
Definition taken_world : World :=
  MkWorld [Dict Sample.alice; Dict carol] ∅ ∅
          {[ "a@x.com" := PendingEntry "c@x.com" "123456" 300 ]}
          {[ "user_email" := "a@x.com" ]}.


Definition wrong_login_req : request :=
  Sample.request_of [("email", "a@x.com"); ("pass", "wrong")].

(** A record from before passwords were hashed: the stored text is not a
    hash the library knows. *)
Definition dave : user :=
  User (Some "d@x.com") (Some "md5$ab$cd") None None None (Some "Dd22222").

Definition plain_world : World := MkWorld [Dict dave] ∅ ∅ ∅ ∅.

Definition plain_login_req : request :=
  Sample.request_of [("email", "d@x.com"); ("pass", "md5$ab$cd")].




End Demo.

(** ** Products *)

(** One object of [products.json]: the keys [api_create_product] writes,
    and [canDelete], which the read handlers add.  [None] is an absent
    key; the values are strings, but for [created_at] and [canDelete]. *)
Record product := Product {
  p_id : option string;
  p_name : option string;
  p_catTitle : option string;
  p_subTitle : option string;
  p_desc : option string;
  p_contact : option string;
  p_priceLabel : option string;
  p_image : option string;
  p_sellerName : option string;
  p_sellerCode : option string;
  p_sellerEmail : option string;
  p_created_at : option Z;
  p_canDelete : option bool
}.

(** An element of the JSON array: an object, or a value of another type,
    kept with the name of its Python type. *)
Inductive pentry := PDict (p : product) | PNotDict (type_name : string).

(** The seller name used when nothing better is known. *)
Definition DEFAULT_SELLER : string := "مستخدم".

(** [int(x)] for a clock reading: truncation towards zero. *)
Definition int_of (x : Q) : Z := Z.quot (Qnum x) (Z.pos (Qden x)).


(** [_find_product]: the first object whose [id] is the one asked for. *)
Fixpoint _find_product (products : list pentry) (product_id : string) : option product :=
  match products with
  | [] => None
  | PDict p :: rest =>
      if decide (p_id p = Some product_id) then Some p else _find_product rest product_id
  | PNotDict _ :: rest => _find_product rest product_id
  end.

(** [p['canDelete'] = v] *)
Definition set_canDelete (v : bool) (p : product) : product :=
  Product (p_id p) (p_name p) (p_catTitle p) (p_subTitle p) (p_desc p) (p_contact p)
          (p_priceLabel p) (p_image p) (p_sellerName p) (p_sellerCode p)
          (p_sellerEmail p) (p_created_at p) (Some v).

(** The ten [p.setdefault(key, default)] of [api_get_products]. *)
Definition set_defaults (created : Z) (p : product) : product :=
  Product (Some (default "" (p_id p))) (Some (default "" (p_name p)))
          (p_catTitle p) (p_subTitle p)
          (Some (default "" (p_desc p))) (Some (default "" (p_contact p)))
          (Some (default "" (p_priceLabel p))) (Some (default "" (p_image p)))
          (Some (default DEFAULT_SELLER (p_sellerName p)))
          (Some (default "" (p_sellerCode p)))
          (Some (default "" (p_sellerEmail p)))
          (Some (default created (p_created_at p)))
          (p_canDelete p).

(** [p.get('sellerEmail') == current_email] *)
Definition sold_by (current_email : string) (p : product) : bool :=
  bool_decide (p_sellerEmail p = Some current_email).

(** The test of the filter of [api_get_products] on one object. *)
Definition in_category (cat sub : string) (p : product) : bool :=
  let p_cat := Py.strip (default "" (p_catTitle p)) in
  let p_sub := Py.strip (default "" (p_subTitle p)) in
  let cat_match := negb (Py.truthy cat) || bool_decide (p_cat = cat) in
  let sub_match := negb (Py.truthy sub) || bool_decide (p_sub = sub) in
  cat_match && sub_match.

(** The first loop of [api_get_products]: the objects that pass the
    test, in the order of the file. *)
Fixpoint filtered (cat sub : string) (products : list pentry) : list pentry :=
  match products with
  | [] => []
  | PDict p :: rest =>
      if in_category cat sub p then PDict p :: filtered cat sub rest
      else filtered cat sub rest
  | PNotDict _ :: rest => filtered cat sub rest
  end.

(** The second loop: every object gets [canDelete] and the defaults; the
    [n]-th object visited reads the clock for its [created_at] default
    (read even when the key is there). *)
Fixpoint computed (clock : nat -> Q) (n : nat) (current_email : string)
    (products : list pentry) : list pentry :=
  match products with
  | [] => []
  | PDict p :: rest =>
      PDict (set_defaults (int_of (clock n)) (set_canDelete (sold_by current_email p) p))
        :: computed clock (S n) current_email rest
  | PNotDict t :: rest => PNotDict t :: computed clock n current_email rest
  end.

(** The JSON body of an answer of the product handlers. *)
Inductive shop_body :=
| Items (items : list pentry)
| Item (item : product)
| Created (id : string)
| Deleted
| Refused (error : string).

Record shop_response := ShopResponse { shop_payload : shop_body; shop_status : nat }.

(** [GET /api/products] *)
Definition api_get_products (clock : nat -> Q) (cat_arg sub_arg : option string)
    (w : World) (products : list pentry) : shop_response :=
  let cat := Py.strip (default "" cat_arg) in
  let sub := Py.strip (default "" sub_arg) in
  let products :=
    if Py.truthy cat || Py.truthy sub then filtered cat sub products else products in
  let products :=
    computed clock 0 (default "" (session w !! "user_email")) products in
  ShopResponse (Items products) 200.



(** The element on which [p.get('id')] raises, if there is one: the
    first that is not an object. *)
Fixpoint first_non_dict (products : list pentry) : option string :=
  match products with
  | [] => None
  | PDict _ :: rest => first_non_dict rest
  | PNotDict t :: _ => Some t
  end.

(** [[p for p in products if p.get('id') != product_id]] on a list of
    objects. *)
Fixpoint without_id (product_id : string) (products : list pentry) : list pentry :=
  match products with
  | [] => []
  | PDict p :: rest =>
      if decide (p_id p = Some product_id) then without_id product_id rest
      else PDict p :: without_id product_id rest
  | PNotDict t :: rest => PNotDict t :: without_id product_id rest
  end.

(** [DELETE /api/products/<product_id>] *)
Definition api_delete_product (product_id : string) (w : World) (products : list pentry)
  : shop_response * list pentry :=
  let current := session w !! "user_email" in
  if negb (truthy_str current)
  then (ShopResponse (Refused "not authenticated") 401, products)
  else
    let current_email := default "" current in
    match _find_product products product_id with
    | None => (ShopResponse (Refused "product not found") 404, products)
    | Some product =>
        if negb (sold_by current_email product)
        then (ShopResponse (Refused "not authorized") 403, products)
        else
          match first_non_dict products with
          | Some t =>
              (ShopResponse
                 (Refused ("'" +:+ t +:+ "' object has no attribute 'get'")) 400,
               products)
          | None => (ShopResponse Deleted 200, without_id product_id products)
          end
    end.

(** ** Sample products *)

Module Stall.

Definition pen : product :=
  Product (Some "p1") (Some "Pen") (Some "Office") (Some " Writing ") (Some "")
          (Some "") (Some "1") (Some "") (Some "Alice") (Some "Ez34Als")
          (Some "a@x.com") (Some 100%Z) None.

(** An older object: few keys, and no seller. *)
Definition mug : product :=
  Product (Some "p2") (Some "Mug") (Some "Kitchen") None None None None None
          None None None None (Some true).

Definition ink : product :=
  Product (Some "p3") (Some "Ink") (Some "Office") (Some "Writing") (Some "")
          (Some "") (Some "2") (Some "") (Some "Bob") (Some "")
          (Some "b@x.com") (Some 200%Z) None.

Definition shelf : list pentry := [PDict pen; PDict mug; PDict ink].


End Stall.

(** * Properties *)

(** ** Clock readings *)

Lemma Qltb_lt (x y : Q) : Qltb x y = true <-> (x < y)%Q.
Proof.
  unfold Qltb. rewrite negb_true_iff, <- not_true_iff_false, Qle_bool_iff.
  split; [apply Qnot_le_lt | apply Qlt_not_le].
Qed.

Lemma Qltb_ge (x y : Q) : Qltb x y = false <-> (y <= x)%Q.
Proof.
  unfold Qltb. rewrite negb_false_iff, Qle_bool_iff. reflexivity.
Qed.

(** ** The purge of one dictionary *)

Section Purge.
Context {A : Type} `{HasExp A}.

Lemma purge_step_lookup (now : Q) (d : gmap string A) (k0 k : string) :
  purge_step now d k0 !! k
  = if decide (k = k0) then d !! k ≫= visited now else d !! k.
Proof.
  unfold purge_step, visited. destruct (decide (k = k0)) as [-> | Hne].
  - destruct (d !! k0) as [e |] eqn:He; [| by rewrite He].
    simpl. destruct (Qltb (exp e) now); [by rewrite lookup_delete_eq | done].
  - destruct (d !! k0) as [e |]; [| done].
    destruct (Qltb (exp e) now); [by rewrite lookup_delete_ne | done].
Qed.

Lemma visited_twice (now : Q) (o : option A) :
  (o ≫= visited now) ≫= visited now = o ≫= visited now.
Proof.
  destruct o as [e |]; [| done]. unfold visited. simpl.
  destruct (Qltb (exp e) now) eqn:Hlt; simpl; [done | by rewrite Hlt].
Qed.

(** The loop over any list of keys deletes the expired entries of the
    keys it visits and touches nothing else. *)
Lemma purge_loop_lookup (now : Q) (ks : list string) (d : gmap string A) (k : string) :
  foldl (purge_step now) d ks !! k
  = if decide (k ∈ ks) then d !! k ≫= visited now else d !! k.
Proof.
  revert d. induction ks as [| k0 ks IH]; intros d.
  - cbn [foldl]. destruct (decide (k ∈ [])) as [Hin | _]; [| done].
    by apply elem_of_nil in Hin.
  - cbn [foldl]. rewrite IH, !purge_step_lookup.
    destruct (decide (k = k0)) as [-> | Hne].
    + rewrite (decide_True (P := k0 ∈ k0 :: ks)) by left.
      rewrite visited_twice. by destruct (decide (k0 ∈ ks)).
    + destruct (decide (k ∈ ks)) as [Hin | Hout].
      * by rewrite decide_True by (by right).
      * rewrite decide_False; [done |]. by intros [? | ?]%elem_of_cons.
Qed.

Lemma purge_store_lookup (now : Q) (d : gmap string A) (k : string) :
  purge_store now d !! k = d !! k ≫= visited now.
Proof.
  unfold purge_store. rewrite purge_loop_lookup.
  destruct (decide (k ∈ elements (dom d))) as [Hin | Hout]; [done |].
  rewrite elem_of_elements, elem_of_dom in Hout.
  destruct (d !! k) as [e |]; [| done]. exfalso. apply Hout. by eexists.
Qed.

(** The loop is the filter that keeps the entries with [now <= exp]. *)
Lemma purge_store_filter (now : Q) (d : gmap string A) :
  purge_store now d = filter (fun kv => Qltb (exp kv.2) now = false) d.
Proof.
  apply map_eq. intros k. rewrite purge_store_lookup, map_lookup_filter.
  destruct (d !! k) as [e |]; [| done]. unfold visited. simpl.
  destruct (Qltb (exp e) now) eqn:Hlt.
  - by rewrite option_guard_False by discriminate.
  - by rewrite option_guard_True by reflexivity.
Qed.

Lemma purge_store_lookup_Some (now : Q) (d : gmap string A) (k : string) (e : A) :
  purge_store now d !! k = Some e <-> d !! k = Some e /\ (now <= exp e)%Q.
Proof.
  rewrite purge_store_filter, map_lookup_filter_Some. simpl.
  rewrite Qltb_ge. reflexivity.
Qed.

Lemma purge_store_lookup_None (now : Q) (d : gmap string A) (k : string) :
  purge_store now d !! k = None <->
  d !! k = None \/ exists e, d !! k = Some e /\ (exp e < now)%Q.
Proof.
  rewrite purge_store_filter, map_lookup_filter_None. simpl. split.
  - intros [Hn | Hall]; [by left |].
    destruct (d !! k) as [e |] eqn:Hk; [right | by left].
    exists e. split; [done |]. apply Qltb_lt.
    specialize (Hall e eq_refl). by destruct (Qltb (exp e) now).
  - intros [Hn | (e & Hk & Hlt)]; [by left | right].
    intros e' He'. rewrite Hk in He'. injection He' as <-.
    apply Qltb_lt in Hlt. rewrite Hlt. discriminate.
Qed.

Lemma purge_store_expired (now : Q) (d : gmap string A) (k : string) (e : A) :
  d !! k = Some e -> (exp e < now)%Q -> purge_store now d !! k = None.
Proof. intros Hk Hlt. apply purge_store_lookup_None. right. eauto. Qed.

Lemma purge_store_kept (now : Q) (d : gmap string A) (k : string) (e : A) :
  d !! k = Some e -> (now <= exp e)%Q -> purge_store now d !! k = Some e.
Proof. intros Hk Hle. by apply purge_store_lookup_Some. Qed.

(** After the purge no entry of the dictionary has [exp < now]. *)
Lemma purge_store_sound (now : Q) (d : gmap string A) (k : string) (e : A) :
  purge_store now d !! k = Some e -> ~ (exp e < now)%Q.
Proof.
  intros [_ Hle]%purge_store_lookup_Some. by apply Qle_not_lt.
Qed.

End Purge.

(** ** Email-code verification *)

Lemma CODE_STORE_purge (now : Q) (w : World) :
  CODE_STORE (_purge_expired now w) = purge_store now (CODE_STORE w).
Proof. reflexivity. Qed.

Lemma VERIFIED_TOKENS_purge (now : Q) (w : World) :
  VERIFIED_TOKENS (_purge_expired now w) = purge_store now (VERIFIED_TOKENS w).
Proof. reflexivity. Qed.

Lemma PENDING_EMAIL_CHANGES_purge (now : Q) (w : World) :
  PENDING_EMAIL_CHANGES (_purge_expired now w) = PENDING_EMAIL_CHANGES w.
Proof. reflexivity. Qed.

Lemma data_file_purge (now : Q) (w : World) :
  data_file (_purge_expired now w) = data_file w.
Proof. reflexivity. Qed.

Lemma session_purge (now : Q) (w : World) :
  session (_purge_expired now w) = session w.
Proof. reflexivity. Qed.

(** [api_verify_code] answers 400 as soon as the purged store has no
    entry for the email. *)
Lemma verify_code_no_entry (now_purge now_check now_stamp : Q)
    (urandom : nat -> Byte.byte) (data : request) (w : World) :
  purge_store now_purge (CODE_STORE w) !! Py.field (data !! "email") = None ->
  exists w',
    api_verify_code now_purge now_check now_stamp urandom data w = (Response Fail 400, w')
    /\ (w' = w \/ w' = _purge_expired now_purge w).
Proof.
  intros Hnone. unfold api_verify_code.
  destruct (negb (Py.truthy _) || negb (Py.truthy _)); [by eauto |].
  rewrite CODE_STORE_purge, Hnone. eauto.
Qed.

(** C5: an entry whose expiry lies below the clock, at the purge or at
    the check that follows it, is refused although the submitted code is
    the stored one: the answer is 400, no token is issued and the session
    is left as it was. *)
Theorem verify_code_expired_rejected (now_purge now_check now_stamp : Q)
    (urandom : nat -> Byte.byte) (data : request) (w : World)
    (email code : string) (entry : code_entry) :
  Py.field (data !! "email") = email ->
  Py.field (data !! "code") = code ->
  CODE_STORE w !! email = Some entry ->
  ce_code entry = code ->
  (exp entry < now_purge \/ exp entry < now_check)%Q ->
  exists w',
    api_verify_code now_purge now_check now_stamp urandom data w = (Response Fail 400, w')
    /\ (w' = w \/ w' = _purge_expired now_purge w).
Proof.
  intros Hemail Hcode Hentry Hmatch [Hpurge | Hcheck].
  - apply verify_code_no_entry. rewrite Hemail.
    by eapply purge_store_expired.
  - unfold api_verify_code. rewrite Hemail, Hcode.
    destruct (negb (Py.truthy _) || negb (Py.truthy _)); [by eauto |].
    rewrite CODE_STORE_purge.
    destruct (purge_store now_purge (CODE_STORE w) !! email) as [e |] eqn:He;
      [| by eauto].
    apply purge_store_lookup_Some in He as [He _].
    assert (e = entry) as -> by congruence.
    apply Qltb_lt in Hcheck. rewrite Hcheck, orb_true_r. eauto.
Qed.

(** ** The token of [secrets.token_urlsafe] *)

Module SecretsFacts.
Import Secrets.

















Lemma length_string_of_list_ascii (cs : list ascii) :
  String.length (string_of_list_ascii cs) = List.length cs.
Proof. induction cs as [| ch cs IH]; simpl; [done | by rewrite IH]. Qed.

Lemma all_chars_string_of_list_ascii (p : ascii -> bool) (cs : list ascii) :
  Forall (fun ch => p ch = true) cs -> Py.all_chars p (string_of_list_ascii cs) = true.
Proof.
  induction 1 as [| ch cs Hch _ IH]; simpl; [done |]. by rewrite Hch, IH.
Qed.






End SecretsFacts.

(** ** [api_verify_code]: the accepted case *)

(** The accepted run of [api_verify_code] and the state it leaves. *)
Lemma verify_code_accept (now_purge now_check now_stamp : Q)
    (urandom : nat -> Byte.byte) (data : request) (w : World)
    (email code : string) (entry : code_entry) :
  Py.field (data !! "email") = email ->
  Py.field (data !! "code") = code ->
  Py.truthy email = true ->
  Py.truthy code = true ->
  CODE_STORE w !! email = Some entry ->
  ce_code entry = code ->
  (now_purge <= exp entry)%Q ->
  (now_check <= exp entry)%Q ->
  exists w',
    api_verify_code now_purge now_check now_stamp urandom data w
      = (Response (OkToken (Secrets.token_urlsafe urandom 24)) 200, w')
    /\ VERIFIED_TOKENS w' !! email
         = Some (TokenEntry (Secrets.token_urlsafe urandom 24) (now_stamp + 300))
    /\ session_get w' = Some email
    /\ CODE_STORE w' !! email = None
    /\ data_file w' = data_file w.
Proof.
  intros Hemail Hcode Tem Tco Hentry Hmatch Hpurge Hcheck.
  eexists. split.
  { unfold api_verify_code. rewrite Hemail, Hcode, Tem, Tco. cbn [negb orb].
    rewrite CODE_STORE_purge, (purge_store_kept _ _ _ _ Hentry Hpurge).
    rewrite bool_decide_true by done.
    apply Qltb_ge in Hcheck. rewrite Hcheck. cbn [negb orb]. reflexivity. }
  split; [simpl; by rewrite lookup_insert_eq |].
  split; [unfold session_get; simpl; by rewrite lookup_insert_eq |].
  split; [simpl; by rewrite lookup_delete_eq | reflexivity].
Qed.


(** ** Lookup in the user list *)

Lemma find_user_from_Some (s : nat) (users : list entry) (email : string)
    (i : nat) (u : user) :
  find_user_from s users email = Some (i, u) ->
  s <= i /\ users !! (i - s) = Some (Dict u) /\ u_email u = Some email.
Proof.
  revert s. induction users as [| e users IH]; intros s Hfind; [done |].
  simpl in Hfind. destruct e as [u0 |].
  - destruct (decide (u_email u0 = Some email)) as [Heq | Hne].
    + injection Hfind as <- <-. rewrite Nat.sub_diag. done.
    + apply IH in Hfind as (Hle & Hlook & Hem).
      replace (i - s) with (S (i - S s)) by lia. split; [lia | done].
  - apply IH in Hfind as (Hle & Hlook & Hem).
    replace (i - s) with (S (i - S s)) by lia. split; [lia | done].
Qed.

Lemma find_user_Some (users : list entry) (email : string) (i : nat) (u : user) :
  _find_user users email = Some (i, u) ->
  users !! i = Some (Dict u) /\ u_email u = Some email.
Proof.
  intros (_ & Hlook & Hem)%find_user_from_Some.
  by rewrite Nat.sub_0_r in Hlook.
Qed.

Lemma find_user_from_None (s : nat) (users : list entry) (email : string) :
  find_user_from s users email = None <->
  forall u, Dict u ∈ users -> u_email u <> Some email.
Proof.
  revert s. induction users as [| e users IH]; intros s; simpl.
  - split; [| done]. intros _ u Hin. by apply elem_of_nil in Hin.
  - destruct e as [u0 |].
    + destruct (decide (u_email u0 = Some email)) as [Heq | Hne].
      * split; [done |]. intros Hall. exfalso. apply (Hall u0); [left | done].
      * rewrite IH. split.
        -- intros Hall u [Hu | Hu]%elem_of_cons; [congruence | by apply Hall].
        -- intros Hall u Hu. apply Hall. by right.
    + rewrite IH. split.
      * intros Hall u [Hu | Hu]%elem_of_cons; [done | by apply Hall].
      * intros Hall u Hu. apply Hall. by right.
Qed.

Lemma find_user_None (users : list entry) (email : string) :
  _find_user users email = None <->
  forall u, Dict u ∈ users -> u_email u <> Some email.
Proof. apply find_user_from_None. Qed.

(** The scan of [api_post_storage] finds an object exactly when
    [_find_user] does. *)
Lemma registered_scan (users : list entry) (email : string) :
  existsb (has_email email) users
  = bool_decide (is_Some (_find_user users email)).
Proof.
  unfold _find_user. generalize 0.
  induction users as [| e users IH]; intros s.
  - reflexivity.
  - destruct e as [u0 |]; cbn [existsb find_user_from has_email].
    + destruct (decide (u_email u0 = Some email)) as [Heq | Hne].
      * rewrite (bool_decide_true _ Heq). cbn [orb]. symmetry.
        apply bool_decide_eq_true. by eexists.
      * rewrite (bool_decide_false _ Hne). cbn [orb]. apply IH.
    + cbn [orb]. apply IH.
Qed.

(** ** The code flow and the user list *)

Lemma bad_code_truthy (code : string) : bad_code code = false -> Py.truthy code = true.
Proof. unfold bad_code. by destruct code. Qed.

(** Neither handler reads or writes [data.json]: with another user list
    the answer is the same and the list is carried along untouched. *)
Lemma request_code_data_file (now_purge now_stamp : Q) (data : request)
    (w : World) (users : list entry) :
  api_request_code now_purge now_stamp data (with_data_file users w)
  = (fst (api_request_code now_purge now_stamp data w),
     with_data_file users (snd (api_request_code now_purge now_stamp data w))).
Proof.
  unfold api_request_code.
  destruct (negb (Py.truthy _) || negb (Py.truthy _) || bad_code _); reflexivity.
Qed.

Lemma verify_code_data_file (now_purge now_check now_stamp : Q)
    (urandom : nat -> Byte.byte) (data : request) (w : World) (users : list entry) :
  api_verify_code now_purge now_check now_stamp urandom data (with_data_file users w)
  = (fst (api_verify_code now_purge now_check now_stamp urandom data w),
     with_data_file users
       (snd (api_verify_code now_purge now_check now_stamp urandom data w))).
Proof.
  unfold api_verify_code.
  destruct (negb (Py.truthy _) || negb (Py.truthy _)); [reflexivity |].
  rewrite !CODE_STORE_purge. cbn [CODE_STORE with_data_file].
  destruct (purge_store now_purge (CODE_STORE w) !! _) as [entry |]; [| reflexivity].
  destruct (negb (bool_decide _) || Qltb _ _); reflexivity.
Qed.

(** C10: for any content of the user list, a valid request for a code
    followed by a matching verification within the 300 seconds stores the
    code, issues a token and makes the email the session principal; the
    user list is neither consulted (any other list gives the same answers)
    nor changed, so the principal is a stored user only if it was one
    before. *)
Theorem code_flow_ignores_user_store (purge1 stamp1 purge2 check2 stamp2 : Q)
    (urandom : nat -> Byte.byte) (data : request) (w : World)
    (email code : string) :
  Py.field (data !! "email") = email ->
  Py.field (data !! "code") = code ->
  Py.truthy email = true ->
  bad_code code = false ->
  (purge2 <= stamp1 + 300)%Q ->
  (check2 <= stamp1 + 300)%Q ->
  exists w1 w2 token,
    api_request_code purge1 stamp1 data w = (Response Ok 200, w1)
    /\ CODE_STORE w1 !! email = Some (CodeEntry code (stamp1 + 300))
    /\ api_verify_code purge2 check2 stamp2 urandom data w1
         = (Response (OkToken token) 200, w2)
    /\ VERIFIED_TOKENS w2 !! email = Some (TokenEntry token (stamp2 + 300))
    /\ session_get w2 = Some email
    /\ data_file w2 = data_file w
    /\ _find_user (data_file w2) email = _find_user (data_file w) email
    /\ forall users,
         api_request_code purge1 stamp1 data (with_data_file users w)
           = (Response Ok 200, with_data_file users w1)
         /\ api_verify_code purge2 check2 stamp2 urandom data (with_data_file users w1)
           = (Response (OkToken token) 200, with_data_file users w2).
Proof.
  intros Hemail Hcode Tem Hgood Hpurge Hcheck.
  pose proof (bad_code_truthy code Hgood) as Tco.
  assert (exists w1, api_request_code purge1 stamp1 data w = (Response Ok 200, w1)
            /\ CODE_STORE w1 !! email = Some (CodeEntry code (stamp1 + 300))
            /\ data_file w1 = data_file w) as (w1 & Hreq & Hstored & Hfile1).
  { eexists. unfold api_request_code.
    rewrite Hemail, Hcode, Tem, Tco, Hgood. cbn [negb orb].
    split; [reflexivity |]. split; [| reflexivity].
    cbn [CODE_STORE with_CODE_STORE]. by rewrite lookup_insert_eq. }
  destruct (verify_code_accept purge2 check2 stamp2 urandom data w1 email code
              (CodeEntry code (stamp1 + 300)))
    as (w2 & Hver & Htok & Hsess & _ & Hfile2); try done.
  exists w1, w2, (Secrets.token_urlsafe urandom 24).
  assert (data_file w2 = data_file w) as Hfile by congruence.
  repeat (split; [done |]). split; [by rewrite Hfile |].
  intros users. rewrite request_code_data_file, verify_code_data_file.
  by rewrite Hreq, Hver.
Qed.

(** ** Password reset *)

Section Reset.
Context `{Werkzeug}.


(** A reset that is not answered 200 writes nothing. *)
Lemma reset_password_failure (now_purge now_check : Q) (salt : string)
    (data : request) (w : World) :
  status (fst (api_reset_password now_purge now_check salt data w)) <> 200 ->
  data_file (snd (api_reset_password now_purge now_check salt data w)) = data_file w.
Proof.
  unfold api_reset_password.
  destruct (negb (Py.truthy _) || negb (Py.truthy _) || negb (Py.truthy _)); [done |].
  destruct (VERIFIED_TOKENS _ !! _) as [v |]; [| done].
  destruct (negb (bool_decide _) || Qltb _ _); [done |].
  destruct (_find_user _ _) as [[i u] |]; [| done]. simpl. done.
Qed.


End Reset.

(** ** Generation of user codes *)

Lemma choice_letters_alpha (r : nat) :
  Py.isalpha_char (Py.choice Py.ascii_letters r) = true.
Proof.
  unfold Py.choice.
  assert (r mod String.length Py.ascii_letters < 52) as Hlt
    by (apply Nat.mod_upper_bound; discriminate).
  generalize dependent (r mod String.length Py.ascii_letters). intros m Hm.
  do 52 (destruct m as [| m]; [reflexivity |]). lia.
Qed.

Lemma choice_alphabet_alnum (r : nat) :
  Py.isalnum_char (Py.choice (Py.ascii_letters +:+ Py.digits) r) = true.
Proof.
  unfold Py.choice.
  assert (r mod String.length (Py.ascii_letters +:+ Py.digits) < 62) as Hlt
    by (apply Nat.mod_upper_bound; discriminate).
  generalize dependent (r mod String.length (Py.ascii_letters +:+ Py.digits)).
  intros m Hm.
  do 62 (destruct m as [| m]; [reflexivity |]). lia.
Qed.

(** Every candidate of length 7 has the form of a code. *)
Lemma candidate_shape (rnd : nat -> nat) (p : nat) :
  code_shape (candidate rnd p 7) = true.
Proof.
  unfold candidate, code_shape.
  rewrite choice_letters_alpha, SecretsFacts.length_string_of_list_ascii.
  rewrite length_fmap, length_seq. cbn [Nat.sub Nat.eqb andb].
  apply SecretsFacts.all_chars_string_of_list_ascii.
  apply Forall_fmap, Forall_forall. intros j _. apply choice_alphabet_alnum.
Qed.

Lemma code_shape_truthy (code : string) : code_shape code = true -> Py.truthy code = true.
Proof. by destruct code. Qed.

(** The loop of [_generate_unique_code] leaves as soon as a round draws a
    candidate that is not taken: if round [k] does, [k + 1] rounds are
    enough, and the result is a candidate that is not taken. *)
Lemma generate_unique_code_returns (fuel : nat) (rnd : nat -> nat) (p : nat)
    (existing : gset string) (len k : nat) :
  candidate rnd (p + k * (1 + (len - 1))) len ∉ existing ->
  k < fuel ->
  exists j,
    j <= k
    /\ _generate_unique_code fuel rnd p existing len
       = Some (candidate rnd (p + j * (1 + (len - 1))) len,
               p + S j * (1 + (len - 1)))
    /\ candidate rnd (p + j * (1 + (len - 1))) len ∉ existing.
Proof.
  revert fuel p. induction k as [| k IH]; intros fuel p Hfresh Hfuel.
  - destruct fuel as [| fuel]; [lia |]. exists 0.
    rewrite Nat.mul_0_l, Nat.add_0_r in *. cbn [_generate_unique_code].
    rewrite decide_False by done.
    split; [done |]. split; [| done]. do 2 f_equal. lia.
  - destruct fuel as [| fuel]; [lia |]. cbn [_generate_unique_code].
    destruct (decide (candidate rnd p len ∈ existing)) as [Hin | Hout].
    + destruct (IH fuel (p + 1 + (len - 1))) as (j & Hj & Hrun & Hnew); [| lia |].
      { replace (p + 1 + (len - 1) + k * (1 + (len - 1)))
          with (p + S k * (1 + (len - 1))) by lia. done. }
      exists (S j).
      replace (p + S j * (1 + (len - 1)))
        with (p + 1 + (len - 1) + j * (1 + (len - 1))) by lia.
      split; [lia |]. split; [| done]. rewrite Hrun. do 2 f_equal. lia.
    + exists 0. rewrite Nat.mul_0_l, Nat.add_0_r.
      split; [lia |]. split; [| done]. do 2 f_equal. lia.
Qed.

(** The same for codes of length 7, with the form of the result. *)
Lemma generate_code7 (fuel : nat) (rnd : nat -> nat) (p : nat)
    (existing : gset string) (k : nat) :
  candidate rnd (p + k * 7) 7 ∉ existing ->
  k < fuel ->
  exists code p',
    _generate_unique_code fuel rnd p existing 7 = Some (code, p')
    /\ (code ∉ existing) /\ code_shape code = true.
Proof.
  intros Hfresh Hfuel.
  destruct (generate_unique_code_returns fuel rnd p existing 7 k)
    as (j & _ & Hrun & Hnew); [done | done |].
  eexists _, _. split; [exact Hrun |]. split; [done | apply candidate_shape].
Qed.

(** Whatever the loop returns is not taken. *)
Lemma generate_unique_code_fresh (fuel : nat) (rnd : nat -> nat) (p : nat)
    (existing : gset string) (len : nat) (code : string) (p' : nat) :
  _generate_unique_code fuel rnd p existing len = Some (code, p') ->
  (code ∉ existing) /\ exists q, code = candidate rnd q len.
Proof.
  revert p. induction fuel as [| fuel IH]; intros p Hrun; [done |].
  simpl in Hrun.
  destruct (decide (candidate rnd p len ∈ existing)) as [Hin | Hout].
  - by apply IH in Hrun.
  - injection Hrun as <- <-. eauto.
Qed.

(** ** [_ensure_user_code] *)

Lemma elem_of_existing_codes (users : list entry) (code : string) :
  code ∈ existing_codes users <->
  exists u, Dict u ∈ users /\ u_code u = Some code /\ Py.truthy code = true.
Proof.
  unfold existing_codes. rewrite elem_of_list_to_set, list_elem_of_omap. split.
  - intros ([u |] & Hin & Hcode); simpl in Hcode; [| done].
    destruct (u_code u) as [c |] eqn:Hc; simpl in Hcode; [| done].
    destruct (Py.truthy c) eqn:Ht; [| done].
    injection Hcode as ->. exists u. by rewrite Hc.
  - intros (u & Hin & Hc & Ht). exists (Dict u). split; [done |].
    simpl. rewrite Hc. simpl. by rewrite Ht.
Qed.

(** A code of the right form that is not among the existing ones is held
    by no object of the list. *)
Lemma not_existing_unused (users : list entry) (code : string) :
  code ∉ existing_codes users -> code_shape code = true ->
  forall u, Dict u ∈ users -> u_code u <> Some code.
Proof.
  intros Hnew Hshape u Hin Hc. apply Hnew, elem_of_existing_codes.
  exists u. by auto using code_shape_truthy.
Qed.

Lemma ensure_user_code_has_code (fuel : nat) (rnd : nat -> nat) (p : nat)
    (users : list entry) (i : nat) (u : user) :
  truthy_str (u_code u) = true ->
  _ensure_user_code fuel rnd p users (Some (i, u)) = Some (users, false, p).
Proof. intros Hc. unfold _ensure_user_code. by rewrite Hc. Qed.

Lemma ensure_user_code_lacks_code (fuel : nat) (rnd : nat -> nat) (p : nat)
    (users : list entry) (i : nat) (u : user) (k : nat) :
  truthy_str (u_code u) = false ->
  candidate rnd (p + k * 7) 7 ∉ existing_codes users ->
  k < fuel ->
  exists code p',
    _ensure_user_code fuel rnd p users (Some (i, u))
      = Some (<[i := Dict (set_code code u)]> users, true, p')
    /\ code_shape code = true
    /\ (code ∉ existing_codes users)
    /\ forall u', Dict u' ∈ users -> u_code u' <> Some code.
Proof.
  intros Hc Hfresh Hfuel.
  destruct (generate_code7 fuel rnd p (existing_codes users) k)
    as (code & p' & Hrun & Hnew & Hshape); [done | done |].
  exists code, p'. unfold _ensure_user_code. rewrite Hc, Hrun.
  split; [reflexivity |]. split; [done |]. split; [done |].
  by apply not_existing_unused.
Qed.

(** C7: for an object of the list that lacks a code, and a random source
    that draws a free candidate within the rounds allowed,
    [_ensure_user_code] stores a code of seven characters (a letter, then
    six letters or digits) that no object of the list holds, and returns
    true; for an object that has a code it changes nothing and returns
    false.  It returns true only in the first case.  A second call on the
    same object changes nothing and returns false. *)
Theorem ensure_user_code_assigns_once (fuel : nat) (rnd : nat -> nat) (p : nat)
    (users : list entry) (i : nat) (u : user) (k : nat) :
  users !! i = Some (Dict u) ->
  (truthy_str (u_code u) = false ->
   (candidate rnd (p + k * 7) 7 ∉ existing_codes users) /\ k < fuel) ->
  exists users' modified p',
    _ensure_user_code fuel rnd p users (Some (i, u)) = Some (users', modified, p')
    /\ modified = negb (truthy_str (u_code u))
    /\ (if modified
        then exists code,
               users' = <[i := Dict (set_code code u)]> users
               /\ code_shape code = true
               /\ String.length code = 7
               /\ forall u', Dict u' ∈ users -> u_code u' <> Some code
        else users' = users /\ p' = p)
    /\ forall fuel' rnd' p'' u',
         users' !! i = Some (Dict u') ->
         _ensure_user_code fuel' rnd' p'' users' (Some (i, u'))
           = Some (users', false, p'').
Proof.
  intros Hlook Hfair.
  destruct (truthy_str (u_code u)) eqn:Hc.
  - exists users, false, p.
    split; [by apply ensure_user_code_has_code |].
    split; [done |]. split; [done |].
    intros fuel' rnd' p'' u' Hu'. apply ensure_user_code_has_code. congruence.
  - destruct (Hfair eq_refl) as [Hfresh Hfuel].
    destruct (ensure_user_code_lacks_code fuel rnd p users i u k)
      as (code & p' & Hrun & Hshape & _ & Hunused); try done.
    exists (<[i := Dict (set_code code u)]> users), true, p'.
    split; [done |]. split; [done |]. split.
    + exists code. repeat (split; [done |]). split; [| done].
      destruct code as [| first rest]; [done |]. simpl in Hshape |- *.
      apply andb_prop in Hshape as [[_ Hlen]%andb_prop _].
      apply Nat.eqb_eq in Hlen. by rewrite Hlen.
    + intros fuel' rnd' p'' u' Hu'.
      rewrite list_lookup_insert_eq in Hu' by (by eapply lookup_lt_Some).
      injection Hu' as <-. apply ensure_user_code_has_code. simpl.
      by apply code_shape_truthy.
Qed.

(** ** Registration and login *)

Lemma existing_codes_app_codeless (users : list entry) (u : user) :
  truthy_str (u_code u) = false ->
  existing_codes (users ++ [Dict u])%list = existing_codes users.
Proof.
  intros Hc. unfold existing_codes. rewrite omap_app. simpl. rewrite Hc. simpl.
  by rewrite app_nil_r.
Qed.

Lemma insert_last (users : list entry) (e e' : entry) :
  <[List.length (users ++ [e])%list - 1 := e']> (users ++ [e])%list = (users ++ [e'])%list.
Proof.
  rewrite length_app. simpl.
  replace (List.length users + 1 - 1) with (List.length users + 0) by lia.
  by rewrite insert_app_r.
Qed.

Section Registration.
Context `{Werkzeug}.

(** The conflict answer of [api_post_storage]. *)
Lemma post_storage_conflict (salt : string) (rnd : nat -> nat) (fuel : nat)
    (payload : request) (w : World) (email : string) :
  Py.field (payload !! "email") = email ->
  Py.truthy email = true ->
  Py.truthy (Py.field (payload !! "pass")) = true ->
  is_Some (_find_user (data_file w) email) ->
  api_post_storage salt rnd fuel payload w
  = Some (Response (FailMsg "account exists") 409, w).
Proof.
  intros Hemail Tem Tpw Hfind. unfold api_post_storage.
  rewrite Hemail, Tem, Tpw. cbn [negb orb].
  unfold _read_users_list. rewrite registered_scan.
  by rewrite bool_decide_true.
Qed.



End Registration.

Lemma find_user_from_app_new (s : nat) (users : list entry) (email : string) (u : user) :
  find_user_from s users email = None ->
  u_email u = Some email ->
  find_user_from s (users ++ [Dict u])%list email = Some (s + List.length users, u).
Proof.
  revert s. induction users as [| e users IH]; intros s Hnone Hem; simpl.
  - rewrite decide_True by done. do 2 f_equal. lia.
  - simpl in Hnone. destruct e as [u0 |].
    + destruct (decide (u_email u0 = Some email)); [done |].
      rewrite IH by done. do 2 f_equal. lia.
    + rewrite IH by done. do 2 f_equal. lia.
Qed.

Section NewAccount.
Context `{Werkzeug}.


End NewAccount.


Section Login.
Context `{Werkzeug}.

(** C9: for a stored user without a code, a login with a password that
    does not pass the check answers 401 and leaves the session alone, but
    has written the user list with a code given to that user - the file
    is no longer the one before the call. *)
Theorem login_failure_writes_code (rnd : nat -> nat) (fuel : nat)
    (payload : request) (w : World) (email password : string)
    (i : nat) (u : user) (k : nat) :
  Py.field (payload !! "email") = email ->
  Py.field (payload !! "pass") = password ->
  Py.truthy email = true ->
  Py.truthy password = true ->
  _find_user (data_file w) email = Some (i, u) ->
  truthy_str (u_code u) = false ->
  password_valid (default "" (u_pass u)) password = false ->
  candidate rnd (k * 7) 7 ∉ existing_codes (data_file w) ->
  k < fuel ->
  exists code w',
    api_login rnd fuel payload w = Some (Response Fail 401, w')
    /\ data_file w' = <[i := Dict (set_code code u)]> (data_file w)
    /\ data_file w' <> data_file w
    /\ code_shape code = true
    /\ (forall u', Dict u' ∈ data_file w -> u_code u' <> Some code)
    /\ session w' = session w.
Proof.
  intros Hemail Hpw Tem Tpw Hfind Hc Hbad Hfresh Hfuel.
  destruct (ensure_user_code_lacks_code fuel rnd 0 (data_file w) i u k)
    as (code & p' & Hrun & Hshape & _ & Hunused); try done.
  exists code. eexists. unfold api_login.
  rewrite Hemail, Hpw, Tem, Tpw. cbn [negb orb].
  unfold _read_users_list. rewrite Hfind, Hrun. simpl. rewrite Hbad. simpl.
  split; [reflexivity |]. simpl. split; [done |]. split.
  - apply find_user_Some in Hfind as [Hlook _]. intros Heq.
    assert (<[i := Dict (set_code code u)]> (data_file w) !! i = Some (Dict u)) as Hi
      by (by rewrite Heq).
    rewrite list_lookup_insert_eq in Hi by (by eapply lookup_lt_Some).
    injection Hi as Hu. rewrite <- Hu in Hc. simpl in Hc.
    by rewrite (code_shape_truthy _ Hshape) in Hc.
  - done.
Qed.

End Login.

(** ** One-time fields *)



(** [api_confirm_email_change] does not read [email_changed]: with a
    matching pending entry it replaces the email whatever the flag is. *)
Lemma confirm_email_change_ignores_flag (now_purge now_check : Q)
    (data : request) (w : World) (current_email new_email code : string)
    (entry : pending_entry) (i : nat) (u : user) :
  session_get w = Some current_email ->
  Py.truthy current_email = true ->
  Py.field (data !! "new_email") = new_email ->
  Py.field (data !! "code") = code ->
  Py.truthy new_email = true ->
  Py.truthy code = true ->
  PENDING_EMAIL_CHANGES w !! current_email = Some entry ->
  pe_new_email entry = new_email ->
  pe_code entry = code ->
  (now_check <= exp entry)%Q ->
  _find_user (data_file w) new_email = None ->
  _find_user (data_file w) current_email = Some (i, u) ->
  exists w',
    api_confirm_email_change now_purge now_check data w = (Response Ok 200, w')
    /\ data_file w'
       = <[i := Dict (set_email_changed true
                        (setdefault_email_changed false (set_email new_email u)))]>
           (data_file w).
Proof.
  intros Hsess Tcur Hnew Hcode Tnew Tcode Hpend Hm1 Hm2 Hcheck Hfree Hfind.
  eexists. unfold api_confirm_email_change.
  rewrite Hsess, Hnew, Hcode. simpl. rewrite Tcur, Tnew, Tcode. simpl.
  rewrite Hpend. rewrite !bool_decide_true by done.
  apply Qltb_ge in Hcheck. rewrite Hcheck. simpl.
  unfold _read_users_list. simpl. rewrite Hfree, Hfind.
  rewrite bool_decide_false by (by intros [? ?]).
  split; reflexivity.
Qed.

(** C1 (the code at the failing input): after a registration, a login
    and a change of email by [api_update_profile], the record has
    [email_changed] true; the two-step flow then answers 200 and the
    record has a third email. *)
Theorem email_changed_twice :
  (exists w3,
     Sample.first_email_change = Some (Response Ok 200, w3)
     /\ data_file w3
        = [Dict (User (Some "b@x.com") (Some "toy$s1$pw1") (Some "Alice")
                      (Some true) (Some false) (Some "abcdefg"))])
  /\ (exists w5,
        Sample.second_email_change = Some (Response Ok 200, w5)
        /\ data_file w5
           = [Dict (User (Some "c@x.com") (Some "toy$s1$pw1") (Some "Alice")
                         (Some true) (Some false) (Some "abcdefg"))]).
Proof. split; eexists; split; vm_compute; reflexivity. Qed.

(** ** The purge and the pending email changes *)

(** In the two dictionaries it visits, the purge leaves no entry with
    [exp < now], and keeps every other entry. *)
Lemma purge_expired_visited (now : Q) (w : World) (k : string) :
  (forall e, CODE_STORE (_purge_expired now w) !! k = Some e <->
             CODE_STORE w !! k = Some e /\ (now <= exp e)%Q)
  /\ (forall v, VERIFIED_TOKENS (_purge_expired now w) !! k = Some v <->
                VERIFIED_TOKENS w !! k = Some v /\ (now <= exp v)%Q).
Proof.
  split; intros e.
  - rewrite CODE_STORE_purge. apply purge_store_lookup_Some.
  - rewrite VERIFIED_TOKENS_purge. apply purge_store_lookup_Some.
Qed.

(** An expired pending entry is refused by the check of
    [api_confirm_email_change] itself, although the purge has kept it. *)
Lemma confirm_email_change_expired (now_purge now_check : Q)
    (data : request) (w : World) (current_email : string) (entry : pending_entry) :
  session_get w = Some current_email ->
  Py.truthy current_email = true ->
  PENDING_EMAIL_CHANGES w !! current_email = Some entry ->
  (exp entry < now_check)%Q ->
  (status (fst (api_confirm_email_change now_purge now_check data w)) = 400
   /\ snd (api_confirm_email_change now_purge now_check data w)
      = _purge_expired now_purge w)
  \/ api_confirm_email_change now_purge now_check data w = (Response Fail 400, w).
Proof.
  intros Hsess Tcur Hpend Hexp. unfold api_confirm_email_change.
  rewrite Hsess. simpl. rewrite Tcur. simpl.
  destruct (negb (Py.truthy _) || negb (Py.truthy _)); [by right |].
  rewrite Hpend. apply Qltb_lt in Hexp. rewrite Hexp, !orb_true_r. by left.
Qed.

(** C2 (the code at the failing input): an email change requested at
    time 0 expires at 300; the purge that [api_request_code] runs at time
    1000 leaves the entry in [PENDING_EMAIL_CHANGES]. *)
Theorem purge_skips_pending_email_changes :
  fst Sample.stale_pending = Response Ok 200
  /\ PENDING_EMAIL_CHANGES (snd Sample.stale_pending) !! "a@x.com"
     = Some (PendingEntry "c@x.com" "123456" 300)
  /\ (300 < 1000)%Q.
Proof. split; [| split]; vm_compute; reflexivity. Qed.

(** * One-time fields across all requests *)






(** What [_ensure_user_code] returns, when it returns. *)
Lemma ensure_user_code_inv (fuel : nat) (rnd : nat -> nat) (p : nat)
    (users : list entry) (user : option (nat * user))
    (users' : list entry) (modified : bool) (p' : nat) :
  _ensure_user_code fuel rnd p users user = Some (users', modified, p') ->
  (modified = false /\ users' = users
   /\ forall i u, user = Some (i, u) -> truthy_str (u_code u) = true)
  \/ exists i u code,
       user = Some (i, u) /\ modified = true
       /\ truthy_str (u_code u) = false
       /\ users' = <[i := Dict (set_code code u)]> users
       /\ (code ∉ existing_codes users)
       /\ code_shape code = true.
Proof.
  unfold _ensure_user_code. destruct user as [[i u] |].
  - destruct (truthy_str (u_code u)) eqn:Hc.
    + intros [= <- <- <-]. left. repeat split. by intros ? ? [= <- <-].
    + destruct (_generate_unique_code _ _ _ _ _) as [[code q] |] eqn:Hgen;
        simpl; [| done].
      intros [= <- <- <-]. right. exists i, u, code.
      apply generate_unique_code_fresh in Hgen as [Hnew [q' ->]].
      repeat split; try done. apply candidate_shape.
  - intros [= <- <- <-]. left. by repeat split.
Qed.


Section OneTime.
Context `{Werkzeug}.








Lemma request_code_file (now_purge now_stamp : Q) (data : request) (w : World) :
  data_file (snd (api_request_code now_purge now_stamp data w)) = data_file w.
Proof.
  unfold api_request_code.
  by destruct (negb (Py.truthy _) || negb (Py.truthy _) || bad_code _).
Qed.

Lemma verify_code_file (now_purge now_check now_stamp : Q)
    (urandom : nat -> Byte.byte) (data : request) (w : World) :
  data_file (snd (api_verify_code now_purge now_check now_stamp urandom data w))
  = data_file w.
Proof.
  unfold api_verify_code.
  destruct (negb (Py.truthy _) || negb (Py.truthy _)); [done |].
  destruct (CODE_STORE _ !! _) as [entry |]; [| done].
  by destruct (negb (bool_decide _) || Qltb _ _).
Qed.

Lemma request_email_change_file (now_purge now_stamp : Q) (data : request) (w : World) :
  data_file (snd (api_request_email_change now_purge now_stamp data w)) = data_file w.
Proof.
  unfold api_request_email_change.
  destruct (negb (truthy_str _)); [done |].
  destruct (negb (Py.truthy _) || negb (Py.truthy _) || bad_code _); [done |].
  by destruct (bool_decide _).
Qed.




End OneTime.

(** * Registering the same email twice *)

Lemma filter_none {X : Type} (f : X -> bool) (l : list X) :
  existsb f l = false -> List.filter f l = [].
Proof.
  induction l as [| x l IH]; [done |]. simpl.
  intros [-> Hrest]%orb_false_elim. by apply IH.
Qed.

Lemma filter_has_email_none (users : list entry) (email : string) :
  _find_user users email = None -> List.filter (has_email email) users = [].
Proof.
  intros Hnone. apply filter_none. rewrite registered_scan, Hnone.
  apply bool_decide_eq_false. by intros [? ?].
Qed.

Section Twice.
Context `{Werkzeug}.

(** What a registration answered 200 has done. *)
Lemma post_storage_success_inv (salt : string) (rnd : nat -> nat) (fuel : nat)
    (payload : request) (w w1 : World) :
  api_post_storage salt rnd fuel payload w = Some (Response Ok 200, w1) ->
  exists code,
    Py.truthy (Py.field (payload !! "email")) = true
    /\ _find_user (data_file w) (Py.field (payload !! "email")) = None
    /\ data_file w1
       = (data_file w ++
          [Dict (User (Some (Py.field (payload !! "email")))
                      (Some (generate_password_hash salt (Py.field (payload !! "pass"))))
                      (Some (Py.field (payload !! "name")))
                      (Some false) (Some false) (Some code))])%list.
Proof.
  unfold api_post_storage.
  destruct (Py.truthy (Py.field (payload !! "email"))) eqn:Tem; [| done].
  destruct (negb true || negb (Py.truthy _)); [done |].
  unfold _read_users_list. rewrite registered_scan.
  destruct (_find_user (data_file w) _) as [[i u] |] eqn:Hfind.
  { by rewrite bool_decide_true. }
  rewrite bool_decide_false by (by intros [? ?]).
  set (new := User _ _ _ _ _ None).
  destruct (_ensure_user_code _ _ _ _ _) as [[[users' m] p'] |] eqn:Hens; [| done].
  simpl. intros [= <-].
  unfold _ensure_user_code in Hens. cbn [new u_code truthy_str] in Hens.
  destruct (_generate_unique_code _ _ _ _ _) as [[code q] |]; [| done].
  injection Hens as <- _ _. exists code. simpl. rewrite insert_last. done.
Qed.

(** The testable property of the specification: after a registration
    answered 200, a second one for the same email is answered 409 and the
    list holds exactly one object for that email, with the hash of the
    first password. *)
Lemma register_twice (salt salt' : string) (rnd rnd' : nat -> nat) (fuel fuel' : nat)
    (payload payload' : request) (w w1 : World) :
  api_post_storage salt rnd fuel payload w = Some (Response Ok 200, w1) ->
  Py.field (payload' !! "email") = Py.field (payload !! "email") ->
  Py.truthy (Py.field (payload' !! "pass")) = true ->
  api_post_storage salt' rnd' fuel' payload' w1
    = Some (Response (FailMsg "account exists") 409, w1)
  /\ exists u,
       List.filter (has_email (Py.field (payload !! "email"))) (data_file w1) = [Dict u]
       /\ u_pass u = Some (generate_password_hash salt (Py.field (payload !! "pass"))).
Proof.
  intros (code & Tem & Hnone & Hfile)%post_storage_success_inv Hsame Tpw.
  split.
  - apply (post_storage_conflict _ _ _ _ _ (Py.field (payload !! "email")));
      try done.
    rewrite Hfile. unfold _find_user. rewrite find_user_from_app_new; by eauto.
  - eexists. rewrite Hfile, List.filter_app, (filter_has_email_none _ _ Hnone).
    simpl. rewrite bool_decide_true by done. split; reflexivity.
Qed.

End Twice.

(** * The backfill at start-up *)

(** On a list whose objects all have a code the loop changes nothing. *)
Lemma backfill_loop_noop (fuel : nat) (rnd : nat -> nat) (p : nat)
    (users : list entry) (todo : list nat) (changed : bool) :
  Forall (fun e => coded e = true) users ->
  backfill_loop fuel rnd p users todo changed = Some (users, changed, p).
Proof.
  intros Hall. induction todo as [| i todo IH]; [done |].
  cbn [backfill_loop]. destruct (users !! i) as [[u |] |] eqn:Hlook; [| done | done].
  assert (truthy_str (u_code u) = true) as Hc.
  { apply list_elem_of_lookup_2 in Hlook.
    rewrite Forall_forall in Hall. apply (Hall _ Hlook). }
  rewrite ensure_user_code_has_code by done. simpl. exact IH.
Qed.

(** What the loop has done when it returns: the list has the same
    length, the elements that had a code or were not objects are as they
    were, the positions visited have a code, and without a change the
    list is the one it started from. *)
Lemma backfill_loop_inv (fuel : nat) (rnd : nat -> nat) (todo : list nat) :
  forall (p : nat) (users : list entry) (changed : bool)
         (users' : list entry) (changed' : bool) (p' : nat),
    backfill_loop fuel rnd p users todo changed = Some (users', changed', p') ->
    List.length users' = List.length users
    /\ (forall i e, users !! i = Some e -> coded e = true -> users' !! i = Some e)
    /\ (forall i e', i ∈ todo -> users' !! i = Some e' -> coded e' = true)
    /\ (changed' = false -> users' = users /\ changed = false).
Proof.
  induction todo as [| i todo IH]; intros p users changed users' changed' p' Hrun.
  - injection Hrun as <- <- <-. repeat split; try done.
    intros i e' Hin. by apply elem_of_nil in Hin.
  - cbn [backfill_loop] in Hrun.
    assert (forall users1 changed1 p1,
              backfill_loop fuel rnd p1 users1 todo changed1
                = Some (users', changed', p') ->
              List.length users1 = List.length users ->
              (forall j e, users !! j = Some e -> coded e = true ->
                           users1 !! j = Some e) ->
              (forall e1, users1 !! i = Some e1 -> coded e1 = true) ->
              (changed1 = false -> users1 = users /\ changed = false) ->
              List.length users' = List.length users
              /\ (forall j e, users !! j = Some e -> coded e = true ->
                              users' !! j = Some e)
              /\ (forall j e', j ∈ i :: todo -> users' !! j = Some e' ->
                               coded e' = true)
              /\ (changed' = false -> users' = users /\ changed = false)) as Hnext.
    { intros users1 changed1 p1 Hrest Hlen Hkeep Hi Hsame.
      destruct (IH _ _ _ _ _ _ Hrest) as (Hlen' & Hkeep' & Hdone' & Hsame').
      split; [congruence |]. split; [by auto |]. split.
      - intros j e' [-> | Hin]%elem_of_cons He'; [| by eauto].
        destruct (users1 !! i) as [e1 |] eqn:H1.
        + pose proof (Hi e1 eq_refl) as Hc1.
          rewrite (Hkeep' _ _ H1 Hc1) in He'. congruence.
        + apply lookup_ge_None in H1. apply lookup_lt_Some in He'. lia.
      - intros Hc. destruct (Hsame' Hc) as [-> Hc1]. by apply Hsame. }
    destruct (users !! i) as [[u |] |] eqn:Hlook.
    + destruct (_ensure_user_code _ _ _ _ _) as [[[users1 m] p1] |] eqn:Hens;
        [| done].
      simpl in Hrun.
      apply ensure_user_code_inv in Hens
        as [(-> & -> & Hhas) | (i' & u' & code & [= <- <-] & -> & Hc & -> & _ & Hshape)].
      * apply (Hnext _ _ _ Hrun); try done.
        intros e1 He1. rewrite Hlook in He1. injection He1 as <-.
        by apply (Hhas i u).
      * apply (Hnext _ _ _ Hrun).
        -- by rewrite length_insert.
        -- intros j e Hj Hcoded. rewrite list_lookup_insert_ne; [done |].
           intros <-. rewrite Hlook in Hj. injection Hj as <-.
           simpl in Hcoded. congruence.
        -- intros e1. rewrite list_lookup_insert_eq by (by eapply lookup_lt_Some).
           intros [= <-]. simpl. by apply code_shape_truthy.
        -- done.
    + apply (Hnext _ _ _ Hrun); try done.
      intros e1 He1. rewrite Hlook in He1. by injection He1 as <-.
    + apply (Hnext _ _ _ Hrun); try done.
      intros e1 He1. by rewrite Hlook in He1.
Qed.

(** After the backfill every object of the stored list has a code, and a
    second backfill changes nothing. *)
Lemma backfill_all_codes_idempotent (fuel : nat) (rnd : nat -> nat) (w w1 : World) :
  _backfill_all_codes fuel rnd w = Some w1 ->
  Forall (fun e => coded e = true) (data_file w1)
  /\ forall fuel' rnd', _backfill_all_codes fuel' rnd' w1 = Some w1.
Proof.
  unfold _backfill_all_codes, _read_users_list.
  destruct (backfill_loop _ _ _ _ _ _) as [[[users' changed'] p'] |] eqn:Hloop;
    [| done].
  simpl. intros [= <-].
  destruct (backfill_loop_inv _ _ _ _ _ _ _ _ _ Hloop)
    as (Hlen & _ & Hdone & Hsame).
  assert (Forall (fun e => coded e = true) users') as Hall.
  { apply Forall_lookup. intros i e He. apply (Hdone i e); [| done].
    apply elem_of_seq. apply lookup_lt_Some in He. lia. }
  assert (Forall (fun e => coded e = true)
            (data_file (if changed' then _write_users_list users' w else w))) as Hall'.
  { destruct changed'; [done |]. by destruct (Hsame eq_refl) as [<- _]. }
  split; [done |]. intros fuel' rnd'.
  by rewrite backfill_loop_noop.
Qed.

(** * Pending codes across all requests *)

Lemma code_store_ok_purge (now : Q) (d : gmap string code_entry) :
  code_store_ok d -> code_store_ok (purge_store now d).
Proof.
  intros Hok k e [He _]%purge_store_lookup_Some. by apply (Hok k e).
Qed.

Lemma code_store_ok_delete (k0 : string) (d : gmap string code_entry) :
  code_store_ok d -> code_store_ok (delete k0 d).
Proof.
  intros Hok k e He. apply lookup_delete_Some in He as [_ He]. by apply (Hok k e).
Qed.

Lemma code_store_ok_insert (k0 : string) (e0 : code_entry) (d : gmap string code_entry) :
  Py.truthy k0 = true -> bad_code (ce_code e0) = false ->
  code_store_ok d -> code_store_ok (<[k0 := e0]> d).
Proof.
  intros Hk Hc Hok k e He.
  apply lookup_insert_Some in He as [[<- <-] | [_ He]]; [done | by apply (Hok k e)].
Qed.

Section PendingCodes.
Context `{Werkzeug}.

Lemma ensure_keeps_code_store (c : bool) (users : list entry) (w : World) :
  CODE_STORE (if c then _write_users_list users w else w) = CODE_STORE w.
Proof. by destruct c. Qed.

(** Every request leaves in [CODE_STORE] only entries that
    [api_request_code] has stored and that no purge has removed. *)
Lemma handle_code_store_ok (o : op) (w : World) (r : response) (w' : World) :
  handle o w = Some (r, w') ->
  code_store_ok (CODE_STORE w) -> code_store_ok (CODE_STORE w').
Proof.
  intros Hrun Hok. destruct o; simpl in Hrun.
  - by injection Hrun as _ <-.
  - unfold api_post_storage in Hrun.
    destruct (negb _ || negb _); [by injection Hrun as _ <- |].
    destruct (existsb _ _); [by injection Hrun as _ <- |].
    destruct (_ensure_user_code _ _ _ _ _) as [[[users' m] p'] |]; [| done].
    simpl in Hrun. by injection Hrun as _ <-.
  - unfold api_account_exists in Hrun.
    destruct (negb _); by injection Hrun as _ <-.
  - unfold api_login in Hrun.
    destruct (negb _ || negb _); [by injection Hrun as _ <- |].
    destruct (_find_user _ _) as [[i u] |]; [| by injection Hrun as _ <-].
    destruct (_ensure_user_code _ _ _ _ _) as [[[users' m] p'] |]; [| done].
    simpl in Hrun.
    destruct (negb _); injection Hrun as _ <-; simpl;
      by rewrite ensure_keeps_code_store.
  - unfold api_request_code in Hrun.
    destruct (negb (Py.truthy _)) eqn:Tem; [by injection Hrun as _ <- |].
    destruct (negb (Py.truthy (Py.field (data !! "code")))) eqn:Tco;
      [by injection Hrun as _ <- |].
    destruct (bad_code _) eqn:Hbad; [by injection Hrun as _ <- |].
    simpl in Hrun. injection Hrun as _ <-. simpl.
    apply code_store_ok_insert; [by apply negb_false_iff | done |].
    by apply code_store_ok_purge.
  - unfold api_verify_code in Hrun.
    destruct (negb _ || negb _); [by injection Hrun as _ <- |].
    destruct (CODE_STORE _ !! _) as [entry |];
      [| injection Hrun as _ <-; by apply code_store_ok_purge].
    destruct (negb _ || Qltb _ _); injection Hrun as _ <-; simpl.
    + by apply code_store_ok_purge.
    + by apply code_store_ok_delete, code_store_ok_purge.
  - unfold api_reset_password in Hrun.
    destruct (negb _ || negb _ || negb _); [by injection Hrun as _ <- |].
    destruct (VERIFIED_TOKENS _ !! _) as [v |];
      [| injection Hrun as _ <-; by apply code_store_ok_purge].
    destruct (negb _ || Qltb _ _);
      [injection Hrun as _ <-; by apply code_store_ok_purge |].
    destruct (_find_user _ _) as [[i u] |]; injection Hrun as _ <-; simpl;
      by apply code_store_ok_purge.
  - unfold api_request_email_change in Hrun.
    destruct (negb (truthy_str _)); [by injection Hrun as _ <- |].
    destruct (negb _ || negb _ || bad_code _); [by injection Hrun as _ <- |].
    destruct (bool_decide _); injection Hrun as _ <-; [done |]. simpl.
    by apply code_store_ok_purge.
  - unfold api_confirm_email_change in Hrun.
    destruct (negb (truthy_str _)); [by injection Hrun as _ <- |].
    destruct (negb _ || negb _); [by injection Hrun as _ <- |].
    destruct (PENDING_EMAIL_CHANGES _ !! _) as [entry |];
      [| injection Hrun as _ <-; by apply code_store_ok_purge].
    destruct (negb _ || negb _ || Qltb _ _);
      [injection Hrun as _ <-; by apply code_store_ok_purge |].
    destruct (bool_decide _);
      [injection Hrun as _ <-; by apply code_store_ok_purge |].
    destruct (_find_user _ _) as [[i u] |]; injection Hrun as _ <-; simpl;
      by apply code_store_ok_purge.
  - by injection Hrun as _ <-.
  - unfold api_me in Hrun.
    destruct (negb (truthy_str _)); [by injection Hrun as _ <- |].
    destruct (_ensure_user_code _ _ _ _ _) as [[[users' m] p'] |]; [| done].
    simpl in Hrun. injection Hrun as _ <-. by rewrite ensure_keeps_code_store.
  - unfold api_update_profile in Hrun.
    destruct (negb (truthy_str _)); [by injection Hrun as _ <- |].
    destruct (negb _ || negb _); [by injection Hrun as _ <- |].
    destruct (_find_user _ _) as [[i u] |]; [| by injection Hrun as _ <-].
    destruct (bool_decide (_ = "email")).
    + destruct (truthy_flag _); [by injection Hrun as _ <- |].
      destruct (bool_decide _ && negb _); by injection Hrun as _ <-.
    + destruct (truthy_flag _); by injection Hrun as _ <-.
  - unfold api_login_google in Hrun.
    destruct (negb _); [by injection Hrun as _ <- |].
    destruct (_find_user _ _); by injection Hrun as _ <-.
Qed.

(** From a start with no pending code, every pending code is for a
    non-empty email and has six digits, whatever the requests were. *)
Lemma code_store_ok_run (events : list event) (w w' : World) :
  run events w = Some w' ->
  code_store_ok (CODE_STORE w) -> code_store_ok (CODE_STORE w').
Proof.
  revert w. induction events as [| [o | s] events IH]; intros w Hrun Hok.
  - by injection Hrun as <-.
  - simpl in Hrun. destruct (handle o w) as [[r w1] |] eqn:Hstep; [| done].
    simpl in Hrun. apply (IH w1 Hrun). by eapply handle_code_store_ok.
  - simpl in Hrun. by apply (IH _ Hrun).
Qed.

End PendingCodes.

(** * The theorems at sample inputs *)

Lemma abcdefg_free :
  candidate Sample.rnd (0 * 7) 7 ∉ existing_codes (data_file Sample.users_world).
Proof.
  apply (proj1 (bool_decide_eq_false
                  (candidate Sample.rnd (0 * 7) 7
                     ∈ existing_codes (data_file Sample.users_world)))).
  vm_compute. reflexivity.
Defined.

Lemma verify_code_expired_rejected_sample :
  CODE_STORE Sample.pending_code_world !! "a@x.com" = Some (CodeEntry "123456" 300)
  /\ exists w',
       api_verify_code 301 301 301 Sample.urandom Sample.code_req
         Sample.pending_code_world = (Response Fail 400, w')
       /\ (w' = Sample.pending_code_world
           \/ w' = _purge_expired 301 Sample.pending_code_world).
Proof.
  split; [reflexivity |].
  apply (verify_code_expired_rejected 301 301 301 Sample.urandom Sample.code_req
           Sample.pending_code_world "a@x.com" "123456" (CodeEntry "123456" 300));
    [reflexivity | reflexivity | reflexivity | reflexivity | left; reflexivity].
Defined.


Lemma code_flow_ignores_user_store_sample :
  _find_user (data_file Sample.empty_world) "a@x.com" = None
  /\ exists w1 w2 token,
       api_request_code 0 0 Sample.code_req Sample.empty_world = (Response Ok 200, w1)
       /\ CODE_STORE w1 !! "a@x.com" = Some (CodeEntry "123456" (0 + 300))
       /\ api_verify_code 10 10 10 Sample.urandom Sample.code_req w1
            = (Response (OkToken token) 200, w2)
       /\ VERIFIED_TOKENS w2 !! "a@x.com" = Some (TokenEntry token (10 + 300))
       /\ session_get w2 = Some "a@x.com"
       /\ data_file w2 = data_file Sample.empty_world
       /\ _find_user (data_file w2) "a@x.com"
          = _find_user (data_file Sample.empty_world) "a@x.com"
       /\ forall users,
            api_request_code 0 0 Sample.code_req (with_data_file users Sample.empty_world)
              = (Response Ok 200, with_data_file users w1)
            /\ api_verify_code 10 10 10 Sample.urandom Sample.code_req
                 (with_data_file users w1)
              = (Response (OkToken token) 200, with_data_file users w2).
Proof.
  split; [reflexivity |].
  apply (code_flow_ignores_user_store 0 0 10 10 10 Sample.urandom Sample.code_req
           Sample.empty_world "a@x.com" "123456");
    try reflexivity; unfold Qle; simpl; lia.
Defined.


Lemma ensure_user_code_assigns_once_sample :
  exists users' modified p',
    _ensure_user_code 1 Sample.rnd 0 (data_file Sample.users_world)
      (Some (1, Sample.bob)) = Some (users', modified, p')
    /\ modified = negb (truthy_str (u_code Sample.bob))
    /\ (if modified
        then exists code,
               users' = <[1 := Dict (set_code code Sample.bob)]>
                          (data_file Sample.users_world)
               /\ code_shape code = true
               /\ String.length code = 7
               /\ forall u', Dict u' ∈ data_file Sample.users_world ->
                             u_code u' <> Some code
        else users' = data_file Sample.users_world /\ p' = 0)
    /\ forall fuel' rnd' p'' u',
         users' !! 1 = Some (Dict u') ->
         _ensure_user_code fuel' rnd' p'' users' (Some (1, u'))
           = Some (users', false, p'').
Proof.
  apply (ensure_user_code_assigns_once 1 Sample.rnd 0 (data_file Sample.users_world)
           1 Sample.bob 0); [reflexivity |].
  intros _. split; [exact abcdefg_free | lia].
Defined.



Lemma login_failure_writes_code_sample :
  exists code w',
    @api_login Sample.werkzeug Sample.rnd 1 Sample.bad_login_req Sample.users_world
      = Some (Response Fail 401, w')
    /\ data_file w' = <[1 := Dict (set_code code Sample.bob)]> (data_file Sample.users_world)
    /\ data_file w' <> data_file Sample.users_world
    /\ code_shape code = true
    /\ (forall u', Dict u' ∈ data_file Sample.users_world -> u_code u' <> Some code)
    /\ session w' = session Sample.users_world.
Proof.
  apply (@login_failure_writes_code Sample.werkzeug Sample.rnd 1 Sample.bad_login_req
           Sample.users_world "b@x.com" "wrong" 1 Sample.bob 0);
    try reflexivity; [exact abcdefg_free | lia].
Defined.

(** * The user list across all requests *)

Lemma live_code_Some (u : user) (c : string) :
  live_code u = Some c <-> u_code u = Some c /\ Py.truthy c = true.
Proof.
  unfold live_code, truthy_str. destruct (u_code u) as [c0 |]; [| by split; [| intros []]].
  destruct (Py.truthy c0) eqn:Ht; split.
  - by intros [= ->].
  - by intros [[= ->] _].
  - done.
  - intros [[= ->] Hc]. congruence.
Qed.

Lemma not_existing_live (users : list entry) (c : string) :
  c ∉ existing_codes users ->
  forall i u, users !! i = Some (Dict u) -> live_code u <> Some c.
Proof.
  intros Hnew i u Hlook [Hc Ht]%live_code_Some. apply Hnew.
  apply elem_of_existing_codes. exists u.
  split; [by eapply list_elem_of_lookup_2 | done].
Qed.

Lemma find_user_None_lookup (users : list entry) (e : string) :
  _find_user users e = None ->
  forall i u, users !! i = Some (Dict u) -> u_email u <> Some e.
Proof.
  intros Hnone i u Hlook. eapply find_user_None; [done |].
  by eapply list_elem_of_lookup_2.
Qed.

(** Replacing an object by one with the same email does not change which
    emails are found. *)
Lemma find_user_None_insert (users : list entry) (j : nat) (u u' : user) (e : string) :
  users !! j = Some (Dict u) -> u_email u' = u_email u ->
  _find_user (<[j := Dict u']> users) e = None -> _find_user users e = None.
Proof.
  intros Hj Hsame Hnone. apply find_user_None. intros u0 Hin.
  apply list_elem_of_lookup in Hin as [i Hi].
  destruct (decide (i = j)) as [-> | Hne].
  - assert (u0 = u) as -> by congruence. rewrite <- Hsame.
    apply (find_user_None_lookup _ _ Hnone j).
    apply list_lookup_insert_eq. by eapply lookup_lt_Some.
  - apply (find_user_None_lookup _ _ Hnone i). by rewrite list_lookup_insert_ne.
Qed.

Section UniqueKeys.
Variable f : user -> option string.

Lemma unique_on_insert (users : list entry) (j : nat) (u u' : user) :
  unique_on f users ->
  users !! j = Some (Dict u) ->
  f u' = f u
  \/ (forall s, f u' = Some s ->
        forall i u1, users !! i = Some (Dict u1) -> i <> j -> f u1 <> Some s) ->
  unique_on f (<[j := Dict u']> users).
Proof.
  intros Huniq Hj Hkey i1 i2 u1 u2 s H1 H2 Hs1 Hs2.
  assert (j < List.length users) as Hlt by (by eapply lookup_lt_Some).
  destruct (decide (i1 = j)) as [-> | Hn1]; destruct (decide (i2 = j)) as [-> | Hn2];
    try done.
  - rewrite list_lookup_insert_eq in H1 by done. injection H1 as <-.
    rewrite list_lookup_insert_ne in H2 by done.
    destruct Hkey as [Hsame | Hfresh].
    + rewrite Hsame in Hs1. by apply (Huniq j i2 u u2 s).
    + exfalso. by apply (Hfresh s Hs1 i2 u2).
  - rewrite list_lookup_insert_eq in H2 by done. injection H2 as <-.
    rewrite list_lookup_insert_ne in H1 by done.
    destruct Hkey as [Hsame | Hfresh].
    + rewrite Hsame in Hs2. by apply (Huniq i1 j u1 u s).
    + exfalso. by apply (Hfresh s Hs2 i1 u1).
  - rewrite list_lookup_insert_ne in H1, H2 by done.
    by apply (Huniq i1 i2 u1 u2 s).
Qed.

Lemma unique_on_app (users : list entry) (u : user) :
  unique_on f users ->
  (forall s, f u = Some s ->
     forall i u1, users !! i = Some (Dict u1) -> f u1 <> Some s) ->
  unique_on f (users ++ [Dict u])%list.
Proof.
  intros Huniq Hfresh i1 i2 u1 u2 s H1 H2 Hs1 Hs2.
  apply lookup_app_Some in H1 as [H1 | [Hge1 H1]];
    apply lookup_app_Some in H2 as [H2 | [Hge2 H2]].
  - by apply (Huniq i1 i2 u1 u2 s).
  - apply list_lookup_singleton_Some in H2 as [_ [= <-]].
    exfalso. by apply (Hfresh s Hs2 i1 u1).
  - apply list_lookup_singleton_Some in H1 as [_ [= <-]].
    exfalso. by apply (Hfresh s Hs1 i2 u2).
  - apply list_lookup_singleton_Some in H1 as [? _].
    apply list_lookup_singleton_Some in H2 as [? _]. lia.
Qed.

End UniqueKeys.

Lemma live_code_set_code (c : string) (u : user) :
  code_shape c = true -> live_code (set_code c u) = Some c.
Proof.
  intros Hshape. unfold live_code. simpl. by rewrite (code_shape_truthy _ Hshape).
Qed.

Lemma live_code_same (u u' : user) : u_code u' = u_code u -> live_code u' = live_code u.
Proof. unfold live_code. by intros ->. Qed.



Lemma list_step_unique_codes (b : bool) (users users' : list entry) :
  list_step b users users' -> unique_on live_code users -> unique_on live_code users'.
Proof.
  intros Hstep Huniq.
  destruct Hstep as [users | users u0 e He Hnone Hfresh | users j u0 c Hj Hc Hshape Hnew
                     | users j u0 pw Hj | users j u0 u1 e Hj Hfree He Hflag Hcode Hpass Hname Hnc
                     | users j u0 u1 Hj Hnc He Hcode Hpass Hflag Hec].
  - done.
  - apply unique_on_app; [done |]. intros s Hs i u1 Hi.
    by apply (not_existing_live users s (Hfresh s Hs) i).
  - eapply unique_on_insert; [done | done |]. right.
    intros s Hs i u1 Hi _. rewrite live_code_set_code in Hs by done.
    injection Hs as <-. by apply (not_existing_live users c Hnew i).
  - eapply unique_on_insert; [done | done |]. by left.
  - eapply unique_on_insert; [done | done |]. left. by apply live_code_same.
  - eapply unique_on_insert; [done | done |]. left. by apply live_code_same.
Qed.

Lemma list_step_unique_emails (b : bool) (users users' : list entry) :
  list_step b users users' -> unique_on u_email users -> unique_on u_email users'.
Proof.
  intros Hstep Huniq.
  destruct Hstep as [users | users u0 e He Hnone Hfresh | users j u0 c Hj Hc Hshape Hnew
                     | users j u0 pw Hj | users j u0 u1 e Hj Hfree He Hflag Hcode Hpass Hname Hnc
                     | users j u0 u1 Hj Hnc He Hcode Hpass Hflag Hec].
  - done.
  - apply unique_on_app; [done |]. intros s Hs i u1 Hi.
    rewrite He in Hs. injection Hs as <-. by apply (find_user_None_lookup users e Hnone i).
  - eapply unique_on_insert; [done | done |]. by left.
  - eapply unique_on_insert; [done | done |]. by left.
  - eapply unique_on_insert; [done | done |].
    destruct Hfree as [Hnone | Hsame]; [right | left; congruence].
    intros s Hs i u2 Hi _. rewrite He in Hs. injection Hs as <-.
    by apply (find_user_None_lookup users e Hnone i).
  - eapply unique_on_insert; [done | done |]. by left.
Qed.

Section Rewritings.
Context `{Werkzeug}.

Lemma ensure_list_step (fuel : nat) (rnd : nat -> nat) (p : nat)
    (users : list entry) (i : nat) (u : user)
    (users' : list entry) (modified : bool) (p' : nat) :
  users !! i = Some (Dict u) ->
  _ensure_user_code fuel rnd p users (Some (i, u)) = Some (users', modified, p') ->
  list_step false users users'.
Proof.
  intros Hlook [(_ & -> & _) | (i' & u' & code & [= <- <-] & _ & Hc & -> & Hnew & Hshape)]
    %ensure_user_code_inv.
  - constructor.
  - by constructor.
Qed.

Lemma post_storage_list_step (salt : string) (rnd : nat -> nat) (fuel : nat)
    (payload : request) (w : World) (r : response) (w' : World) :
  api_post_storage salt rnd fuel payload w = Some (r, w') ->
  list_step false (data_file w) (data_file w').
Proof.
  unfold api_post_storage.
  destruct (negb (Py.truthy _) || negb (Py.truthy _)); [intros [= _ <-]; constructor |].
  unfold _read_users_list. rewrite registered_scan.
  destruct (_find_user (data_file w) _) as [[i u] |] eqn:Hfind.
  { rewrite bool_decide_true by done. intros [= _ <-]. constructor. }
  rewrite bool_decide_false by (by intros [? ?]).
  set (new := User _ _ _ _ _ None).
  destruct (_ensure_user_code _ _ _ _ _) as [[[users' m] p'] |] eqn:Hens; [| done].
  simpl. intros [= _ <-]. simpl.
  unfold _ensure_user_code in Hens. cbn [new u_code truthy_str] in Hens.
  destruct (_generate_unique_code _ _ _ _ _) as [[code q] |] eqn:Hgen; [| done].
  injection Hens as <- _ _. rewrite insert_last.
  apply generate_unique_code_fresh in Hgen as [Hnew _].
  rewrite existing_codes_app_codeless in Hnew by done.
  eapply step_new; [reflexivity | exact Hfind |].
  intros c [[= <-] _]%live_code_Some. done.
Qed.

Lemma login_list_step (rnd : nat -> nat) (fuel : nat)
    (payload : request) (w : World) (r : response) (w' : World) :
  api_login rnd fuel payload w = Some (r, w') ->
  list_step false (data_file w) (data_file w').
Proof.
  unfold api_login.
  destruct (negb (Py.truthy _) || negb (Py.truthy _)); [intros [= _ <-]; constructor |].
  destruct (_find_user _ _) as [[i u] |] eqn:Hfind; [| intros [= _ <-]; constructor].
  apply find_user_Some in Hfind as [Hlook _].
  destruct (_ensure_user_code _ _ _ _ _) as [[[users' m] p'] |] eqn:Hens; [| done].
  apply ensure_list_step in Hens; [| done].
  simpl. assert (list_step false (data_file w)
                   (data_file (if m then _write_users_list users' w else w))) as Hstep.
  { destruct m; [done | constructor]. }
  destruct (negb _); intros [= _ <-]; exact Hstep.
Qed.

Lemma me_list_step (rnd : nat -> nat) (fuel : nat)
    (w : World) (r : response) (w' : World) :
  api_me rnd fuel w = Some (r, w') ->
  list_step false (data_file w) (data_file w').
Proof.
  unfold api_me.
  destruct (negb (truthy_str _)); [intros [= _ <-]; constructor |].
  destruct (_ensure_user_code _ _ _ _ _) as [[[users' m] p'] |] eqn:Hens; [| done].
  simpl. intros [= _ <-].
  destruct (_find_user _ _) as [[i u] |] eqn:Hfind.
  - apply find_user_Some in Hfind as [Hlook _].
    apply ensure_list_step in Hens; [| done].
    destruct m; [done | constructor].
  - injection Hens as <- <- _. constructor.
Qed.

(** A password is replaced only by a reset that is answered 200. *)
Lemma reset_password_list_step (now_purge now_check : Q) (salt : string)
    (data : request) (w : World) :
  exists b,
    list_step b (data_file w)
      (data_file (snd (api_reset_password now_purge now_check salt data w)))
    /\ (b = true ->
        status (fst (api_reset_password now_purge now_check salt data w)) = 200).
Proof.
  unfold api_reset_password.
  destruct (negb (Py.truthy _) || negb (Py.truthy _) || negb (Py.truthy _));
    [exists false; split; [constructor | done] |].
  destruct (VERIFIED_TOKENS _ !! _) as [v |];
    [| exists false; split; [constructor | done]].
  destruct (negb (bool_decide _) || Qltb _ _);
    [exists false; split; [constructor | done] |].
  destruct (_find_user _ _) as [[i u] |] eqn:Hfind;
    [| exists false; split; [constructor | done]].
  apply find_user_Some in Hfind as [Hlook _]. exists true. simpl.
  split; [by constructor | done].
Qed.

Lemma confirm_email_change_list_step (now_purge now_check : Q)
    (data : request) (w : World) :
  list_step false (data_file w)
    (data_file (snd (api_confirm_email_change now_purge now_check data w))).
Proof.
  unfold api_confirm_email_change.
  destruct (negb (truthy_str _)); [constructor |].
  destruct (negb (Py.truthy _) || negb (Py.truthy _)); [constructor |].
  destruct (PENDING_EMAIL_CHANGES _ !! _) as [entry |]; [| constructor].
  destruct (negb (bool_decide _) || negb (bool_decide _) || Qltb _ _); [constructor |].
  unfold _read_users_list. rewrite data_file_purge.
  destruct (_find_user (data_file w) (Py.field _)) as [[i0 u0] |] eqn:Hnew.
  { rewrite bool_decide_true by done. constructor. }
  rewrite bool_decide_false by (by intros [? ?]).
  destruct (_find_user _ (default "" _)) as [[i u] |] eqn:Hfind; [| constructor].
  apply find_user_Some in Hfind as [Hlook _]. simpl.
  eapply step_email; [exact Hlook | left; exact Hnew | ..];
    destruct u as [em pw nm [ec |] nc co]; reflexivity.
Qed.

Lemma update_profile_list_step (payload : request) (w : World) :
  list_step false (data_file w) (data_file (snd (api_update_profile payload w))).
Proof.
  unfold api_update_profile.
  destruct (negb (truthy_str (session_get w))) eqn:Hsess; [constructor |].
  destruct (negb (bool_decide _) || negb (Py.truthy _)); [constructor |].
  destruct (_find_user _ _) as [[i u] |] eqn:Hfind; [| constructor].
  apply find_user_Some in Hfind as [Hlook Hem].
  set (v := Py.field (payload !! "value")).
  set (d := setdefault_name_changed false
              (setdefault_email_changed false (setdefault_name "" u))).
  assert (u_email d = u_email u) as Hde
    by (by destruct u as [em pw [nm |] [ec |] [nc |] co]).
  destruct (bool_decide (_ = "email")).
  - destruct (truthy_flag _); [constructor |].
    destruct (bool_decide (is_Some (_find_user _ v))) eqn:Hfound.
    + destruct (bool_decide (v = default "" (session_get w))) eqn:Hsame;
        cbn [negb andb]; [| constructor].
      apply bool_decide_eq_true in Hsame.
      simpl. unfold _read_users_list. rewrite list_insert_insert_eq.
      eapply (step_email _ _ u _ v); [exact Hlook | right; by rewrite Hem, Hsame | ..];
        destruct u as [em pw [nm |] [ec |] [nc |] co]; reflexivity.
    + cbn [andb]. apply bool_decide_eq_false in Hfound.
      assert (_find_user (<[i := Dict d]> (_read_users_list w)) v = None) as Hnone.
      { destruct (_find_user _ v); [| done]. exfalso. apply Hfound. by eexists. }
      apply (find_user_None_insert _ _ u) in Hnone; [| done | done].
      simpl. unfold _read_users_list. rewrite list_insert_insert_eq.
      eapply (step_email _ _ u _ v); [exact Hlook | left; exact Hnone | ..];
        destruct u as [em pw [nm |] [ec |] [nc |] co]; reflexivity.
  - destruct (truthy_flag (u_name_changed d)) eqn:Hflag; [constructor |].
    simpl. unfold _read_users_list. rewrite list_insert_insert_eq.
    eapply step_name; [exact Hlook | ..];
      destruct u as [em pw [nm |] [ec |] [[|] |] co]; done.
Qed.

Lemma login_google_list_step (urandom : nat -> Byte.byte) (salt : string)
    (data : request) (w : World) :
  list_step false (data_file w)
    (data_file (snd (api_login_google urandom salt data w))).
Proof.
  unfold api_login_google.
  destruct (negb (Py.truthy _)); [constructor |].
  destruct (_find_user _ _) as [[i u] |] eqn:Hfind; simpl; [constructor |].
  eapply step_new; [reflexivity | exact Hfind | done].
Qed.

(** Every request rewrites the user list by one [list_step], and replaces
    a password only when it is a reset answered 200. *)
Lemma handle_list_step (o : op) (w : World) (r : response) (w' : World) :
  handle o w = Some (r, w') ->
  exists b,
    list_step b (data_file w) (data_file w')
    /\ (b = true ->
        status r = 200
        /\ exists now_purge now_check salt data,
             o = ResetPassword now_purge now_check salt data).
Proof.
  assert (forall users', list_step false (data_file w) users' ->
            exists b, list_step b (data_file w) users'
                      /\ (b = true ->
                          status r = 200
                          /\ exists now_purge now_check salt data,
                               o = ResetPassword now_purge now_check salt data))
    as Hplain by (intros users' Hs; exists false; by split).
  destruct o; simpl.
  - intros [= _ <-]. apply Hplain. constructor.
  - intros Hrun. by eapply Hplain, post_storage_list_step.
  - unfold api_account_exists.
    destruct (negb _); intros [= _ <-]; apply Hplain; constructor.
  - intros Hrun. by eapply Hplain, login_list_step.
  - intros Heq. rewrite (surjective_pairing (api_request_code _ _ _ _)) in Heq.
    injection Heq as _ <-. rewrite request_code_file. apply Hplain. constructor.
  - intros Heq. rewrite (surjective_pairing (api_verify_code _ _ _ _ _ _)) in Heq.
    injection Heq as _ <-. rewrite verify_code_file. apply Hplain. constructor.
  - intros Heq. rewrite (surjective_pairing (api_reset_password _ _ _ _ _)) in Heq.
    injection Heq as <- <-.
    destruct (reset_password_list_step now_purge now_check salt data w)
      as (b & Hstep & Hb).
    exists b. split; [done |]. intros ->. split; [by apply Hb | by eauto].
  - intros Heq. rewrite (surjective_pairing (api_request_email_change _ _ _ _)) in Heq.
    injection Heq as _ <-. rewrite request_email_change_file. apply Hplain.
    constructor.
  - intros Heq. rewrite (surjective_pairing (api_confirm_email_change _ _ _ _)) in Heq.
    injection Heq as _ <-. apply Hplain, confirm_email_change_list_step.
  - intros [= _ <-]. apply Hplain. constructor.
  - intros Hrun. by eapply Hplain, me_list_step.
  - intros Heq. rewrite (surjective_pairing (api_update_profile _ _)) in Heq.
    injection Heq as _ <-. apply Hplain, update_profile_list_step.
  - intros Heq. rewrite (surjective_pairing (api_login_google _ _ _ _)) in Heq.
    injection Heq as _ <-. apply Hplain, login_google_list_step.
Qed.

End Rewritings.

(** * Further properties of the user store *)

Lemma find_user_from_first (s : nat) (users : list entry) (email : string)
    (i : nat) (u : user) :
  find_user_from s users email = Some (i, u) ->
  forall j u0, j < i - s -> users !! j = Some (Dict u0) -> u_email u0 <> Some email.
Proof.
  revert s. induction users as [| e users IH]; intros s Hfind j u0 Hj Hlook; [done |].
  simpl in Hfind. destruct e as [u1 |].
  - destruct (decide (u_email u1 = Some email)) as [Heq | Hne].
    + injection Hfind as <- <-. lia.
    + destruct j as [| j]; [simpl in Hlook; congruence |].
      pose proof (find_user_from_Some _ _ _ _ _ Hfind) as (Hle & _ & _).
      apply (IH (S s) Hfind j); [lia | done].
  - destruct j as [| j]; [done |].
    pose proof (find_user_from_Some _ _ _ _ _ Hfind) as (Hle & _ & _).
    apply (IH (S s) Hfind j); [lia | done].
Qed.

Lemma find_user_from_found (s : nat) (users : list entry) (email : string)
    (i : nat) (u : user) :
  users !! i = Some (Dict u) -> u_email u = Some email ->
  (forall j u0, j < i -> users !! j = Some (Dict u0) -> u_email u0 <> Some email) ->
  find_user_from s users email = Some (s + i, u).
Proof.
  revert s i. induction users as [| e users IH]; intros s i Hlook Hem Hfirst; [done |].
  destruct i as [| i].
  - injection Hlook as ->. simpl. rewrite decide_True by done. do 2 f_equal. lia.
  - simpl in Hlook. simpl. destruct e as [u1 |].
    + rewrite decide_False by (apply (Hfirst 0 u1); [lia | done]).
      rewrite (IH (S s) i); [do 2 f_equal; lia | done | done |].
      intros j u0 Hj Hl. apply (Hfirst (S j) u0); [lia | done].
    + rewrite (IH (S s) i); [do 2 f_equal; lia | done | done |].
      intros j u0 Hj Hl. apply (Hfirst (S j) u0); [lia | done].
Qed.

(** X1: [_find_user] answers the first object of the list whose email is
    the one asked for: the object stands at the position returned, has
    that email, and no object before it has; elements that are not
    objects are skipped. *)
Theorem find_user_first_match (users : list entry) (email : string)
    (i : nat) (u : user) :
  _find_user users email = Some (i, u) <->
  users !! i = Some (Dict u) /\ u_email u = Some email
  /\ forall j u0, j < i -> users !! j = Some (Dict u0) -> u_email u0 <> Some email.
Proof.
  split.
  - intros Hfind. destruct (find_user_Some _ _ _ _ Hfind) as [Hlook Hem].
    repeat split; try done. intros j u0 Hj.
    apply (find_user_from_first 0 users email i u Hfind). lia.
  - intros (Hlook & Hem & Hfirst).
    by apply (find_user_from_found 0 users email i u).
Qed.

(** Every candidate is a letter followed by letters or digits, and has
    the length asked for, or one character when none is asked for. *)
Lemma candidate_form (rnd : nat -> nat) (p len : nat) :
  letter_then_alnum (candidate rnd p len) = true
  /\ String.length (candidate rnd p len) = 1 + (len - 1).
Proof.
  unfold candidate, letter_then_alnum. split.
  - rewrite choice_letters_alpha. cbn [andb].
    apply SecretsFacts.all_chars_string_of_list_ascii.
    apply Forall_fmap, Forall_forall. intros j _. apply choice_alphabet_alnum.
  - cbn [String.length]. rewrite SecretsFacts.length_string_of_list_ascii.
    by rewrite length_fmap, length_seq.
Qed.

(** X2: whatever [_generate_unique_code] returns is not among the
    existing codes, starts with a letter and goes on with letters or
    digits, and has [length] characters - one character for a [length] of
    0 or 1, since the first letter is always drawn. *)
Theorem generate_unique_code_result (fuel : nat) (rnd : nat -> nat) (p : nat)
    (existing : gset string) (len : nat) (code : string) (p' : nat) :
  _generate_unique_code fuel rnd p existing len = Some (code, p') ->
  (code ∉ existing)
  /\ letter_then_alnum code = true
  /\ String.length code = Nat.max 1 len.
Proof.
  intros (Hnew & q & ->)%generate_unique_code_fresh.
  destruct (candidate_form rnd q len) as [Hform Hlen].
  split; [done |]. split; [done |]. rewrite Hlen. lia.
Qed.

Lemma backfill_loop_unique (fuel : nat) (rnd : nat -> nat) (todo : list nat) :
  forall (p : nat) (users : list entry) (changed : bool)
         (users' : list entry) (changed' : bool) (p' : nat),
    backfill_loop fuel rnd p users todo changed = Some (users', changed', p') ->
    unique_on live_code users -> unique_on live_code users'.
Proof.
  induction todo as [| i todo IH]; intros p users changed users' changed' p' Hrun Huniq.
  - by injection Hrun as <- _ _.
  - cbn [backfill_loop] in Hrun.
    destruct (users !! i) as [[u |] |] eqn:Hlook; [| by eauto | by eauto].
    destruct (_ensure_user_code _ _ _ _ _) as [[[users1 m] p1] |] eqn:Hens; [| done].
    simpl in Hrun. apply ensure_list_step in Hens; [| done].
    eapply IH; [exact Hrun |]. by eapply list_step_unique_codes.
Qed.

(** X3: when [_backfill_all_codes] returns, the stored list has the same
    length, every object in it has a code, the elements that had a code
    (or are not objects) are untouched, distinct codes stay distinct, and
    running the backfill again changes nothing. *)
Theorem backfill_completes (fuel : nat) (rnd : nat -> nat) (w w1 : World) :
  _backfill_all_codes fuel rnd w = Some w1 ->
  List.length (data_file w1) = List.length (data_file w)
  /\ Forall (fun e => coded e = true) (data_file w1)
  /\ (forall i e, data_file w !! i = Some e -> coded e = true ->
                  data_file w1 !! i = Some e)
  /\ (unique_on live_code (data_file w) -> unique_on live_code (data_file w1))
  /\ forall fuel' rnd', _backfill_all_codes fuel' rnd' w1 = Some w1.
Proof.
  unfold _backfill_all_codes, _read_users_list.
  destruct (backfill_loop _ _ _ _ _ _) as [[[users' changed'] p'] |] eqn:Hloop;
    [| done].
  simpl. intros [= <-].
  destruct (backfill_loop_inv _ _ _ _ _ _ _ _ _ Hloop)
    as (Hlen & Hkeep & Hdone & Hsame).
  pose proof (backfill_loop_unique _ _ _ _ _ _ _ _ _ Hloop) as Huniq.
  assert (Forall (fun e => coded e = true) users') as Hall.
  { apply Forall_lookup. intros i e He. apply (Hdone i e); [| done].
    apply elem_of_seq. apply lookup_lt_Some in He. lia. }
  assert (data_file (if changed' then _write_users_list users' w else w) = users')
    as Hfile.
  { destruct changed'; [done |]. by destruct (Hsame eq_refl) as [-> _]. }
  rewrite Hfile. repeat split; try done.
  intros fuel' rnd'. by rewrite backfill_loop_noop.
Qed.

Lemma backfill_completes_sample :
  exists w1,
    _backfill_all_codes 1 Sample.rnd Demo.legacy_world = Some w1
    /\ data_file w1 <> data_file Demo.legacy_world
    /\ List.length (data_file w1) = List.length (data_file Demo.legacy_world)
    /\ Forall (fun e => coded e = true) (data_file w1)
    /\ (forall i e, data_file Demo.legacy_world !! i = Some e -> coded e = true ->
                    data_file w1 !! i = Some e)
    /\ (unique_on live_code (data_file Demo.legacy_world) ->
        unique_on live_code (data_file w1))
    /\ forall fuel' rnd', _backfill_all_codes fuel' rnd' w1 = Some w1.
Proof.
  eexists. split; [vm_compute; reflexivity |]. split; [discriminate |].
  apply (backfill_completes 1 Sample.rnd Demo.legacy_world). vm_compute. reflexivity.
Defined.

Lemma generate_unique_code_result_sample :
  ("a" ∉ ({[ "b" ]} : gset string))
  /\ letter_then_alnum "a" = true
  /\ String.length "a" = Nat.max 1 0.
Proof.
  apply (generate_unique_code_result 1 Sample.rnd 0 {[ "b" ]} 0 "a" 1). reflexivity.
Defined.

(** * Invariants of the user list *)

Section Invariants.
Context `{Werkzeug}.

(** X4: no sequence of requests gives two users the same code: if the
    codes of the stored list are pairwise distinct before, they are
    afterwards. *)
Theorem codes_stay_unique (events : list event) (w w' : World) :
  run events w = Some w' ->
  unique_on live_code (data_file w) ->
  unique_on live_code (data_file w').
Proof.
  revert w. induction events as [| [o | s] events IH]; intros w Hrun Huniq.
  - by injection Hrun as <-.
  - simpl in Hrun. destruct (handle o w) as [[r w1] |] eqn:Hstep; [| done].
    simpl in Hrun. apply handle_list_step in Hstep as (b & Hstep & _).
    apply (IH w1 Hrun). by eapply list_step_unique_codes.
  - simpl in Hrun. by apply (IH _ Hrun).
Qed.

(** X5: no sequence of requests gives two records the same email: if the
    emails of the stored list are pairwise distinct before, they are
    afterwards. *)
Theorem emails_stay_unique (events : list event) (w w' : World) :
  run events w = Some w' ->
  unique_on u_email (data_file w) ->
  unique_on u_email (data_file w').
Proof.
  revert w. induction events as [| [o | s] events IH]; intros w Hrun Huniq.
  - by injection Hrun as <-.
  - simpl in Hrun. destruct (handle o w) as [[r w1] |] eqn:Hstep; [| done].
    simpl in Hrun. apply handle_list_step in Hstep as (b & Hstep & _).
    apply (IH w1 Hrun). by eapply list_step_unique_emails.
  - simpl in Hrun. by apply (IH _ Hrun).
Qed.



End Invariants.

Lemma unique_on_nil (f : user -> option string) : unique_on f [].
Proof. intros i j u1 u2 s Hi. done. Qed.

Lemma codes_stay_unique_sample :
  exists w',
    @run Sample.werkzeug Demo.day Sample.empty_world = Some w'
    /\ List.length (data_file w') = 2
    /\ unique_on live_code (data_file w').
Proof.
  eexists. split; [vm_compute; reflexivity |]. split; [reflexivity |].
  apply (@codes_stay_unique Sample.werkzeug Demo.day Sample.empty_world);
    [vm_compute; reflexivity | apply unique_on_nil].
Defined.

Lemma emails_stay_unique_sample :
  exists w',
    @run Sample.werkzeug Demo.day Sample.empty_world = Some w'
    /\ List.length (data_file w') = 2
    /\ unique_on u_email (data_file w').
Proof.
  eexists. split; [vm_compute; reflexivity |]. split; [reflexivity |].
  apply (@emails_stay_unique Sample.werkzeug Demo.day Sample.empty_world);
    [vm_compute; reflexivity | apply unique_on_nil].
Defined.




(** * The purge, the session and the gate *)

Lemma purge_store_twice {A : Type} `{HasExp A} (now : Q) (d : gmap string A) :
  purge_store now (purge_store now d) = purge_store now d.
Proof.
  apply map_eq. intros k. by rewrite !purge_store_lookup, visited_twice.
Qed.

(** X9: [_purge_expired] removes from [CODE_STORE] and [VERIFIED_TOKENS]
    exactly the entries whose expiry lies below the clock reading and
    keeps every other entry as it is; it leaves the pending email
    changes, the user list and the session untouched, and purging again
    at the same reading changes nothing more. *)
Theorem purge_expired_exact (now : Q) (w : World) :
  (forall k e, CODE_STORE (_purge_expired now w) !! k = Some e <->
               CODE_STORE w !! k = Some e /\ ~ (exp e < now)%Q)
  /\ (forall k v, VERIFIED_TOKENS (_purge_expired now w) !! k = Some v <->
                  VERIFIED_TOKENS w !! k = Some v /\ ~ (exp v < now)%Q)
  /\ PENDING_EMAIL_CHANGES (_purge_expired now w) = PENDING_EMAIL_CHANGES w
  /\ data_file (_purge_expired now w) = data_file w
  /\ session (_purge_expired now w) = session w
  /\ _purge_expired now (_purge_expired now w) = _purge_expired now w.
Proof.
  assert (forall x y : Q, (x <= y)%Q <-> ~ (y < x)%Q) as Hle
    by (intros x y; split; [apply Qle_not_lt | apply Qnot_lt_le]).
  split; [| split].
  - intros k e. rewrite CODE_STORE_purge, purge_store_lookup_Some. by rewrite Hle.
  - intros k v. rewrite VERIFIED_TOKENS_purge, purge_store_lookup_Some. by rewrite Hle.
  - repeat split. unfold _purge_expired. destruct w as [f cs vt pe se]. simpl.
    unfold with_VERIFIED_TOKENS, with_CODE_STORE. simpl.
    by rewrite !purge_store_twice.
Qed.

Section Gate.
Context `{Werkzeug}.

(** Without a principal the handlers that need one answer 401 and leave
    the state alone. *)
Lemma no_principal_401 (w : World) :
  truthy_str (session_get w) = false ->
  market_protected w = Redirect "/main?login_required=1"
  /\ (forall rnd fuel, api_me rnd fuel w = Some (Response Fail 401, w))
  /\ (forall payload, api_update_profile payload w = (Response Fail 401, w))
  /\ (forall t1 t2 data,
        api_request_email_change t1 t2 data w = (Response Fail 401, w))
  /\ (forall t1 t2 data,
        api_confirm_email_change t1 t2 data w = (Response Fail 401, w)).
Proof.
  intros Hno. unfold market_protected, api_me, api_update_profile,
    api_request_email_change, api_confirm_email_change.
  unfold session_get in *. rewrite Hno. by repeat split.
Qed.

(** [api_reset_password] does not read the session. *)
Lemma reset_password_session (now_purge now_check : Q) (salt : string)
    (data : request) (w : World) (s : gmap string string) :
  api_reset_password now_purge now_check salt data (with_session s w)
  = (fst (api_reset_password now_purge now_check salt data w),
     with_session s (snd (api_reset_password now_purge now_check salt data w))).
Proof.
  unfold api_reset_password.
  destruct (negb (Py.truthy _) || negb (Py.truthy _) || negb (Py.truthy _));
    [reflexivity |].
  rewrite !VERIFIED_TOKENS_purge. cbn [VERIFIED_TOKENS with_session].
  destruct (purge_store now_purge (VERIFIED_TOKENS w) !! _) as [v |]; [| reflexivity].
  destruct (negb (bool_decide _) || Qltb _ _); [reflexivity |].
  unfold _read_users_list. rewrite !data_file_purge. cbn [data_file with_session].
  destruct (_find_user _ _) as [[i u] |]; reflexivity.
Qed.

(** X10: [api_logout] answers 200 and clears the session principal only:
    the user list and the three dictionaries are as before.  Afterwards
    the market page redirects to the login page and the handlers that
    need a principal answer 401 without touching the state, while a
    password reset is answered exactly as it would have been before the
    logout - tokens and pending codes survive it. *)
Theorem logout_clears_principal_only (w : World) :
  exists w',
    api_logout w = (Response Ok 200, w')
    /\ session_get w' = None
    /\ data_file w' = data_file w
    /\ CODE_STORE w' = CODE_STORE w
    /\ VERIFIED_TOKENS w' = VERIFIED_TOKENS w
    /\ PENDING_EMAIL_CHANGES w' = PENDING_EMAIL_CHANGES w
    /\ market_protected w' = Redirect "/main?login_required=1"
    /\ (forall rnd fuel, api_me rnd fuel w' = Some (Response Fail 401, w'))
    /\ (forall payload, api_update_profile payload w' = (Response Fail 401, w'))
    /\ (forall t1 t2 data,
          api_request_email_change t1 t2 data w' = (Response Fail 401, w'))
    /\ (forall t1 t2 data,
          api_confirm_email_change t1 t2 data w' = (Response Fail 401, w'))
    /\ forall t1 t2 salt data,
         fst (api_reset_password t1 t2 salt data w')
         = fst (api_reset_password t1 t2 salt data w).
Proof.
  eexists. split; [reflexivity |].
  assert (session_get (with_session (delete "user_email" (session w)) w) = None)
    as Hnone by (unfold session_get; simpl; apply lookup_delete_eq).
  split; [done |]. do 4 (split; [reflexivity |]).
  destruct (no_principal_401 (with_session (delete "user_email" (session w)) w))
    as (Hm & Hme & Hup & Hreq & Hconf); [by rewrite Hnone |].
  do 5 (split; [done |]).
  intros t1 t2 salt data. by rewrite reset_password_session.
Qed.

End Gate.

(** * The profile and the Google login *)

Lemma find_user_insert_same (users : list entry) (i : nat) (u u' : user) (e : string) :
  _find_user users e = Some (i, u) -> u_email u' = Some e ->
  _find_user (<[i := Dict u']> users) e = Some (i, u').
Proof.
  intros Hfind Hem. destruct (find_user_Some _ _ _ _ Hfind) as [Hlook _].
  apply (find_user_from_found 0 _ e i u'); [| done |].
  - apply list_lookup_insert_eq. by eapply lookup_lt_Some.
  - intros j u0 Hj Hl. rewrite list_lookup_insert_ne in Hl by lia.
    apply (find_user_from_first 0 users e i u Hfind j); [lia | done].
Qed.


Section Profile.
Context `{Werkzeug}.

(** [api_me] for a user who has a code: a plain read. *)
Lemma me_with_code (rnd : nat -> nat) (fuel : nat) (w : World)
    (email : string) (i : nat) (u : user) (code : string) :
  session_get w = Some email -> Py.truthy email = true ->
  _find_user (data_file w) email = Some (i, u) ->
  live_code u = Some code ->
  api_me rnd fuel w
  = Some (Response (Me email (name_of u) (truthy_flag (u_email_changed u))
                       (truthy_flag (u_name_changed u)) code) 200, w).
Proof.
  intros Hsess Tem Hfind [Hc Ht]%live_code_Some. unfold api_me.
  rewrite Hsess. simpl. rewrite Tem. simpl. unfold _read_users_list. rewrite Hfind.
  rewrite ensure_user_code_has_code by (by rewrite Hc). simpl.
  apply find_user_Some in Hfind as [Hlook _]. rewrite Hlook. simpl. by rewrite Hc.
Qed.

(** X11: for a logged-in user with a record, [/api/me] answers 200 with
    the stored name and flags and with a non-empty code; a user without a
    code is given one first, which is written to the file; with a code
    nothing is written.  Asking again gives the same answer and writes
    nothing. *)
Theorem me_reports_and_backfills (rnd : nat -> nat) (fuel : nat) (w : World)
    (email : string) (i : nat) (u : user) (k : nat) :
  session_get w = Some email ->
  Py.truthy email = true ->
  _find_user (data_file w) email = Some (i, u) ->
  (truthy_str (u_code u) = false ->
   (candidate rnd (k * 7) 7 ∉ existing_codes (data_file w)) /\ k < fuel) ->
  exists code w' u',
    api_me rnd fuel w
    = Some (Response (Me email (name_of u) (truthy_flag (u_email_changed u))
                         (truthy_flag (u_name_changed u)) code) 200, w')
    /\ Py.truthy code = true
    /\ _find_user (data_file w') email = Some (i, u')
    /\ u_code u' = Some code
    /\ (truthy_str (u_code u) = true -> w' = w)
    /\ forall rnd' fuel',
         api_me rnd' fuel' w'
         = Some (Response (Me email (name_of u) (truthy_flag (u_email_changed u))
                              (truthy_flag (u_name_changed u)) code) 200, w').
Proof.
  intros Hsess Tem Hfind Hfair.
  destruct (truthy_str (u_code u)) eqn:Hc.
  - assert (exists code, live_code u = Some code) as [code Hlive].
    { unfold live_code. rewrite Hc. unfold truthy_str in Hc.
      destruct (u_code u); [by eauto | done]. }
    exists code, w, u. pose proof Hlive as [Hcode Ht]%live_code_Some.
    split; [by apply (me_with_code rnd fuel w email i u code) |].
    repeat (split; [done |]).
    intros rnd' fuel'. by apply (me_with_code rnd' fuel' w email i u code).
  - destruct (Hfair eq_refl) as [Hfresh Hfuel].
    destruct (ensure_user_code_lacks_code fuel rnd 0 (data_file w) i u k)
      as (code & p' & Hrun & Hshape & _ & _); try done.
    pose proof (find_user_Some _ _ _ _ Hfind) as [Hlook Hem].
    exists code, (_write_users_list (<[i := Dict (set_code code u)]> (data_file w)) w),
      (set_code code u).
    assert (api_me rnd fuel w
            = Some (Response (Me email (name_of u) (truthy_flag (u_email_changed u))
                                 (truthy_flag (u_name_changed u)) code) 200,
                    _write_users_list (<[i := Dict (set_code code u)]> (data_file w)) w))
      as Hfirst.
    { unfold api_me. rewrite Hsess. simpl. rewrite Tem. simpl.
      unfold _read_users_list. rewrite Hfind, Hrun. simpl.
      rewrite list_lookup_insert_eq by (by eapply lookup_lt_Some). done. }
    split; [done |]. split; [by apply code_shape_truthy |].
    assert (_find_user (<[i := Dict (set_code code u)]> (data_file w)) email
            = Some (i, set_code code u)) as Hfind'
      by (by apply (find_user_insert_same _ _ u)).
    split; [done |]. split; [done |]. split; [done |].
    intros rnd' fuel'.
    apply (me_with_code rnd' fuel' _ email i (set_code code u) code); try done.
    by apply live_code_set_code.
Qed.

(** X12: a session principal without a record - one that comes from the
    code flow alone - gets from [/api/me] the answer 200 with its email,
    an empty name, both flags false and an empty code; nothing is
    written and no code is generated. *)
Theorem me_without_record (rnd : nat -> nat) (fuel : nat) (w : World) (email : string) :
  session_get w = Some email ->
  Py.truthy email = true ->
  _find_user (data_file w) email = None ->
  api_me rnd fuel w = Some (Response (Me email "" false false "") 200, w).
Proof.
  intros Hsess Tem Hfind. unfold api_me.
  rewrite Hsess. simpl. rewrite Tem. simpl. unfold _read_users_list.
  by rewrite Hfind.
Qed.


End Profile.

(** * The two ways to change a one-time field *)

Section Changes.
Context `{Werkzeug}.


(** X15: when the email asked for has been taken in the meantime, the
    confirmation is answered 409 although email, code and time match;
    the user list is not written, the session is unchanged and the
    pending entry stays where it is. *)
Theorem confirm_email_change_collision (now_purge now_check : Q)
    (data : request) (w : World) (current new_email code : string)
    (entry : pending_entry) (j : nat) (other : user) :
  session_get w = Some current ->
  Py.truthy current = true ->
  Py.field (data !! "new_email") = new_email ->
  Py.field (data !! "code") = code ->
  Py.truthy new_email = true ->
  Py.truthy code = true ->
  PENDING_EMAIL_CHANGES w !! current = Some entry ->
  pe_new_email entry = new_email ->
  pe_code entry = code ->
  (now_check <= exp entry)%Q ->
  _find_user (data_file w) new_email = Some (j, other) ->
  exists w',
    api_confirm_email_change now_purge now_check data w
    = (Response (FailMsg "email exists") 409, w')
    /\ data_file w' = data_file w
    /\ session w' = session w
    /\ PENDING_EMAIL_CHANGES w' !! current = Some entry.
Proof.
  intros Hsess Tcur Hnew Hcode Tnew Tcode Hpend Hm1 Hm2 Hcheck Hfind.
  exists (_purge_expired now_purge w). split; [| by repeat split].
  unfold api_confirm_email_change.
  rewrite Hsess, Hnew, Hcode. simpl. rewrite Tcur, Tnew, Tcode. simpl.
  rewrite Hpend. rewrite !bool_decide_true by done.
  apply Qltb_ge in Hcheck. rewrite Hcheck. reflexivity.
Qed.



End Changes.

(** * Logging in *)

Section Logins.
Context `{Werkzeug}.

(** [api_login] for a user who has a code: the answer follows the
    password check and only the session can change. *)
Lemma login_with_code (rnd : nat -> nat) (fuel : nat) (payload : request) (w : World)
    (email password : string) (i : nat) (u : user) :
  Py.field (payload !! "email") = email ->
  Py.field (payload !! "pass") = password ->
  Py.truthy email = true ->
  Py.truthy password = true ->
  _find_user (data_file w) email = Some (i, u) ->
  truthy_str (u_code u) = true ->
  api_login rnd fuel payload w
  = Some (if password_valid (default "" (u_pass u)) password
          then (Response Ok 200, session_set email w)
          else (Response Fail 401, w)).
Proof.
  intros Hemail Hpw Tem Tpw Hfind Hc. unfold api_login.
  rewrite Hemail, Hpw, Tem, Tpw. cbn [negb orb].
  unfold _read_users_list. rewrite Hfind.
  rewrite ensure_user_code_has_code by done. simpl.
  by destruct (password_valid _ _).
Qed.

(** X18: after a registration answered 200, a login with the same email
    and password is answered 200 and makes the email the session
    principal, provided the library accepts the password against the
    hash it has made of it; the login writes nothing.  A login with a
    password the library rejects against that hash is answered 401 and
    leaves the session alone. *)
Theorem register_then_login (salt : string) (rnd rnd' : nat -> nat) (fuel fuel' : nat)
    (payload payload' : request) (w w1 : World) (email password wrong : string) :
  api_post_storage salt rnd fuel payload w = Some (Response Ok 200, w1) ->
  Py.field (payload !! "email") = email ->
  Py.field (payload !! "pass") = password ->
  Py.field (payload' !! "email") = email ->
  Py.field (payload' !! "pass") = wrong ->
  Py.truthy wrong = true ->
  check_password_hash (generate_password_hash salt password) password = Some true ->
  check_password_hash (generate_password_hash salt password) wrong = Some false ->
  exists w2,
    api_login rnd' fuel' payload w1 = Some (Response Ok 200, w2)
    /\ session_get w2 = Some email
    /\ data_file w2 = data_file w1
    /\ api_login rnd' fuel' payload' w1 = Some (Response Fail 401, w1).
Proof.
  intros Hreg Hemail Hpw Hemail' Hwrong Twrong Hgood Hbad.
  pose proof Hreg as (code & Tem & Hnone & Hfile)%post_storage_success_inv.
  rewrite Hemail, Hpw in *.
  assert (Py.truthy password = true) as Tpw.
  { unfold api_post_storage in Hreg. rewrite Hemail, Hpw, Tem in Hreg.
    destruct (Py.truthy password); [done | simpl in Hreg; congruence]. }
  set (new := User (Some email) (Some (generate_password_hash salt password))
                   (Some (Py.field (payload !! "name")))
                   (Some false) (Some false) (Some code)) in *.
  assert (_find_user (data_file w1) email = Some (List.length (data_file w), new))
    as Hfind.
  { rewrite Hfile. unfold _find_user. by rewrite find_user_from_app_new. }
  assert (truthy_str (u_code new) = true) as Hc.
  { simpl. unfold api_post_storage in Hreg.
    rewrite Hemail, Hpw, Tem, Tpw in Hreg. cbn [negb orb] in Hreg.
    destruct (existsb _ _); [done |].
    destruct (_ensure_user_code _ _ _ _ _) as [[[users' m] p'] |] eqn:Hens; [| done].
    simpl in Hreg. injection Hreg as <-.
    unfold _ensure_user_code in Hens. simpl in Hens.
    destruct (_generate_unique_code _ _ _ _ _) as [[code' q] |] eqn:Hgen; [| done].
    injection Hens as <- _ _. rewrite insert_last in Hfile. simpl in Hfile.
    apply app_inv_head in Hfile. injection Hfile as <-.
    apply generate_unique_code_fresh in Hgen as [_ [q' ->]].
    apply code_shape_truthy, candidate_shape. }
  exists (session_set email w1).
  rewrite (login_with_code rnd' fuel' payload w1 email password
             (List.length (data_file w)) new); try done.
  rewrite (login_with_code rnd' fuel' payload' w1 email wrong
             (List.length (data_file w)) new); try done.
  unfold password_valid. simpl. rewrite Hgood, Hbad.
  split; [done |]. split; [| done].
  unfold session_get. simpl. by rewrite lookup_insert_eq.
Qed.

(** X19: when the stored text is not a hash the library can check and
    the library raises, [api_login] falls back to comparing the stored
    text with the password: the login is answered 200 exactly when they
    are equal, so an account stored in plain text can log in. *)
Theorem login_legacy_plaintext (rnd : nat -> nat) (fuel : nat) (payload : request)
    (w : World) (email password : string) (i : nat) (u : user) :
  Py.field (payload !! "email") = email ->
  Py.field (payload !! "pass") = password ->
  Py.truthy email = true ->
  Py.truthy password = true ->
  _find_user (data_file w) email = Some (i, u) ->
  truthy_str (u_code u) = true ->
  check_password_hash (default "" (u_pass u)) password = None ->
  (u_pass u = Some password ->
   api_login rnd fuel payload w = Some (Response Ok 200, session_set email w))
  /\ (u_pass u <> Some password ->
      api_login rnd fuel payload w = Some (Response Fail 401, w)).
Proof.
  intros Hemail Hpw Tem Tpw Hfind Hc Hraise.
  rewrite (login_with_code rnd fuel payload w email password i u); try done.
  unfold password_valid. rewrite Hraise. split.
  - intros Hsame. rewrite Hsame. simpl. by rewrite bool_decide_true.
  - intros Hdiff. rewrite bool_decide_false; [done |].
    intros Heq. apply Hdiff. destruct (u_pass u) as [pw |]; simpl in Heq.
    + by rewrite Heq.
    + rewrite <- Heq in Tpw. discriminate.
Qed.


End Logins.

(** * Asking for a code twice *)

Lemma request_code_stores (now_purge now_stamp : Q) (data : request) (w : World)
    (email code : string) :
  Py.field (data !! "email") = email ->
  Py.field (data !! "code") = code ->
  Py.truthy email = true ->
  bad_code code = false ->
  api_request_code now_purge now_stamp data w
  = (Response Ok 200,
     with_CODE_STORE
       (<[email := CodeEntry code (now_stamp + CODE_TTL_SECONDS)]>
          (CODE_STORE (_purge_expired now_purge w)))
       (_purge_expired now_purge w)).
Proof.
  intros Hemail Hcode Tem Hgood. unfold api_request_code.
  by rewrite Hemail, Hcode, Tem, (bad_code_truthy code Hgood), Hgood.
Qed.

(** X21: a second request for a code for the same email replaces the
    first: only the second code is pending, with a new expiry; a
    verification with the first code is then answered 400 and one with
    the second code, before it expires, 200. *)
Theorem request_code_replaces (purge1 stamp1 purge2 stamp2 : Q)
    (data1 data2 : request) (w : World) (email code1 code2 : string) :
  Py.field (data1 !! "email") = email ->
  Py.field (data2 !! "email") = email ->
  Py.field (data1 !! "code") = code1 ->
  Py.field (data2 !! "code") = code2 ->
  Py.truthy email = true ->
  bad_code code1 = false ->
  bad_code code2 = false ->
  code1 <> code2 ->
  exists w1 w2,
    api_request_code purge1 stamp1 data1 w = (Response Ok 200, w1)
    /\ api_request_code purge2 stamp2 data2 w1 = (Response Ok 200, w2)
    /\ CODE_STORE w2 !! email = Some (CodeEntry code2 (stamp2 + 300))
    /\ (forall purge3 check3 stamp3 urandom,
          fst (api_verify_code purge3 check3 stamp3 urandom data1 w2)
          = Response Fail 400)
    /\ (forall purge3 check3 stamp3 urandom,
          (purge3 <= stamp2 + 300)%Q -> (check3 <= stamp2 + 300)%Q ->
          fst (api_verify_code purge3 check3 stamp3 urandom data2 w2)
          = Response (OkToken (Secrets.token_urlsafe urandom 24)) 200).
Proof.
  intros He1 He2 Hc1 Hc2 Tem Hg1 Hg2 Hne.
  set (w1 := with_CODE_STORE
               (<[email := CodeEntry code1 (stamp1 + CODE_TTL_SECONDS)]>
                  (CODE_STORE (_purge_expired purge1 w)))
               (_purge_expired purge1 w)).
  set (w2 := with_CODE_STORE
               (<[email := CodeEntry code2 (stamp2 + CODE_TTL_SECONDS)]>
                  (CODE_STORE (_purge_expired purge2 w1)))
               (_purge_expired purge2 w1)).
  exists w1, w2.
  split; [by apply (request_code_stores purge1 stamp1 data1 w email code1) |].
  split; [by apply (request_code_stores purge2 stamp2 data2 w1 email code2) |].
  assert (CODE_STORE w2 !! email = Some (CodeEntry code2 (stamp2 + 300))) as Hstored
    by (unfold w2; cbn [CODE_STORE with_CODE_STORE]; by rewrite lookup_insert_eq).
  split; [exact Hstored |]. split.
  - intros purge3 check3 stamp3 urandom. unfold api_verify_code.
    rewrite He1, Hc1, Tem, (bad_code_truthy code1 Hg1). cbn [negb orb].
    rewrite CODE_STORE_purge.
    destruct (purge_store purge3 (CODE_STORE w2) !! email) as [e |] eqn:He; [| done].
    apply purge_store_lookup_Some in He as [He _].
    rewrite Hstored in He. injection He as <-. cbn [ce_code].
    rewrite bool_decide_false by congruence. done.
  - intros purge3 check3 stamp3 urandom Hp Hc.
    destruct (verify_code_accept purge3 check3 stamp3 urandom data2 w2 email code2
                (CodeEntry code2 (stamp2 + 300))) as (w3 & -> & _); try done.
    by apply bad_code_truthy.
Qed.

Lemma request_code_replaces_sample :
  exists w1 w2,
    api_request_code 0 0 Sample.code_req Sample.empty_world = (Response Ok 200, w1)
    /\ api_request_code 5 5
         (Sample.request_of [("email", "a@x.com"); ("code", "654321")]) w1
       = (Response Ok 200, w2)
    /\ CODE_STORE w2 !! "a@x.com" = Some (CodeEntry "654321" (5 + 300))
    /\ (forall purge3 check3 stamp3 urandom,
          fst (api_verify_code purge3 check3 stamp3 urandom Sample.code_req w2)
          = Response Fail 400)
    /\ (forall purge3 check3 stamp3 urandom,
          (purge3 <= 5 + 300)%Q -> (check3 <= 5 + 300)%Q ->
          fst (api_verify_code purge3 check3 stamp3 urandom
                 (Sample.request_of [("email", "a@x.com"); ("code", "654321")]) w2)
          = Response (OkToken (Secrets.token_urlsafe urandom 24)) 200).
Proof.
  apply (request_code_replaces 0 0 5 5 Sample.code_req
           (Sample.request_of [("email", "a@x.com"); ("code", "654321")])
           Sample.empty_world "a@x.com" "123456" "654321");
    try reflexivity. discriminate.
Defined.

(** * The further properties at sample inputs *)

Lemma me_reports_and_backfills_sample :
  exists code w' u',
    api_me Sample.rnd 1 Demo.bob_session
    = Some (Response (Me "b@x.com" "" false false code) 200, w')
    /\ Py.truthy code = true
    /\ _find_user (data_file w') "b@x.com" = Some (1, u')
    /\ u_code u' = Some code
    /\ (truthy_str (u_code Sample.bob) = true -> w' = Demo.bob_session)
    /\ forall rnd' fuel',
         api_me rnd' fuel' w'
         = Some (Response (Me "b@x.com" "" false false code) 200, w').
Proof.
  apply (me_reports_and_backfills Sample.rnd 1 Demo.bob_session
           "b@x.com" 1 Sample.bob 0); try reflexivity.
  intros _. split; [exact abcdefg_free | lia].
Defined.

Lemma me_without_record_sample :
  api_me Sample.rnd 0 Demo.ghost_session
  = Some (Response (Me "a@x.com" "" false false "") 200, Demo.ghost_session).
Proof.
  apply (me_without_record Sample.rnd 0 Demo.ghost_session "a@x.com");
    reflexivity.
Defined.



Lemma confirm_email_change_collision_sample :
  exists w',
    api_confirm_email_change 10 10 Sample.to_c_req Demo.taken_world
    = (Response (FailMsg "email exists") 409, w')
    /\ data_file w' = data_file Demo.taken_world
    /\ session w' = session Demo.taken_world
    /\ PENDING_EMAIL_CHANGES w' !! "a@x.com"
       = Some (PendingEntry "c@x.com" "123456" 300).
Proof.
  apply (confirm_email_change_collision 10 10 Sample.to_c_req Demo.taken_world
           "a@x.com" "c@x.com" "123456" (PendingEntry "c@x.com" "123456" 300)
           1 Demo.carol);
    try reflexivity. unfold Qle; simpl; lia.
Defined.



Lemma register_then_login_sample :
  exists w1 w2,
    @api_post_storage Sample.werkzeug "s1" Sample.rnd 1 Sample.register_req
      Sample.empty_world = Some (Response Ok 200, w1)
    /\ @api_login Sample.werkzeug Sample.rnd 0 Sample.register_req w1
       = Some (Response Ok 200, w2)
    /\ session_get w2 = Some "a@x.com"
    /\ data_file w2 = data_file w1
    /\ @api_login Sample.werkzeug Sample.rnd 0 Demo.wrong_login_req w1
       = Some (Response Fail 401, w1).
Proof.
  assert (exists w1,
            @api_post_storage Sample.werkzeug "s1" Sample.rnd 1 Sample.register_req
              Sample.empty_world = Some (Response Ok 200, w1))
    as [w1 Hreg] by (eexists; vm_compute; reflexivity).
  exists w1.
  destruct (@register_then_login Sample.werkzeug "s1" Sample.rnd Sample.rnd 1 0
              Sample.register_req Demo.wrong_login_req Sample.empty_world w1
              "a@x.com" "pw1" "wrong" Hreg) as (w2 & H2); try reflexivity.
  exists w2. by split.
Defined.

Lemma login_legacy_plaintext_sample :
  (u_pass Demo.dave = Some "md5$ab$cd" ->
   @api_login Sample.werkzeug Sample.rnd 0 Demo.plain_login_req Demo.plain_world
   = Some (Response Ok 200, session_set "d@x.com" Demo.plain_world))
  /\ (u_pass Demo.dave <> Some "md5$ab$cd" ->
      @api_login Sample.werkzeug Sample.rnd 0 Demo.plain_login_req Demo.plain_world
      = Some (Response Fail 401, Demo.plain_world)).
Proof.
  apply (@login_legacy_plaintext Sample.werkzeug Sample.rnd 0 Demo.plain_login_req
           Demo.plain_world "d@x.com" "md5$ab$cd" 0 Demo.dave); reflexivity.
Defined.


(** * Products *)


Lemma find_product_Some (products : list pentry) (product_id : string) (p : product) :
  _find_product products product_id = Some p ->
  PDict p ∈ products /\ p_id p = Some product_id.
Proof.
  induction products as [| [q | t] products IH]; simpl; [done | |].
  - destruct (decide (p_id q = Some product_id)) as [Heq | Hne].
    + intros [= <-]. split; [left | done].
    + intros [Hin Hid]%IH. split; [by right | done].
  - intros [Hin Hid]%IH. split; [by right | done].
Qed.

Lemma find_product_None (products : list pentry) (product_id : string) :
  _find_product products product_id = None <->
  forall p, PDict p ∈ products -> p_id p <> Some product_id.
Proof.
  induction products as [| [q | t] products IH]; simpl.
  - split; [| done]. intros _ p Hin. by apply elem_of_nil in Hin.
  - destruct (decide (p_id q = Some product_id)) as [Heq | Hne].
    + split; [done |]. intros Hall. exfalso. apply (Hall q); [left | done].
    + rewrite IH. split.
      * intros Hall p [[= ->] | Hin]%elem_of_cons; [done | by apply Hall].
      * intros Hall p Hin. apply Hall. by right.
  - rewrite IH. split.
    + intros Hall p [[=] | Hin]%elem_of_cons. by apply Hall.
    + intros Hall p Hin. apply Hall. by right.
Qed.

Lemma elem_of_without_id (product_id : string) (products : list pentry) (e : pentry) :
  e ∈ without_id product_id products <->
  e ∈ products /\ forall p, e = PDict p -> p_id p <> Some product_id.
Proof.
  induction products as [| [q | t] products IH]; simpl.
  - split; [intros Hin | intros [Hin _]]; by apply elem_of_nil in Hin.
  - destruct (decide (p_id q = Some product_id)) as [Heq | Hne].
    + rewrite IH. split.
      * intros [Hin Hid]. split; [by right | done].
      * intros [[-> | Hin]%elem_of_cons Hid]; [| done]. by destruct (Hid q).
    + rewrite elem_of_cons, IH. split.
      * intros [-> | [Hin Hid]]; [| split; [by right | done]].
        split; [left |]. by intros p [= <-].
      * intros [[-> | Hin]%elem_of_cons Hid]; [by left | by right].
  - rewrite elem_of_cons, IH. split.
    + intros [-> | [Hin Hid]]; [| split; [by right | done]].
      split; [left | done].
    + intros [[-> | Hin]%elem_of_cons Hid]; [by left | by right].
Qed.

Lemma find_product_without_other (product_id other : string) (products : list pentry) :
  other <> product_id ->
  _find_product (without_id product_id products) other = _find_product products other.
Proof.
  intros Hne. induction products as [| [q | t] products IH]; simpl; [done | | done].
  destruct (decide (p_id q = Some product_id)) as [Heq | Hneq]; simpl.
  - rewrite decide_False by congruence. done.
  - by rewrite IH.
Qed.


(** X23: a delete answered 200 comes from a client whose principal is
    the seller email of the first product with that id; it removes every
    product with that id - whoever sells it - and nothing else: the other
    elements stay, in their order, and the lookups of all other ids are
    as before. *)
Theorem delete_product_only_by_seller (product_id : string) (w : World)
    (products : list pentry) :
  shop_status (fst (api_delete_product product_id w products)) = 200 ->
  exists current product,
    session_get w = Some current /\ Py.truthy current = true
    /\ _find_product products product_id = Some product
    /\ p_sellerEmail product = Some current
    /\ api_delete_product product_id w products
       = (ShopResponse Deleted 200, without_id product_id products)
    /\ _find_product (without_id product_id products) product_id = None
    /\ (forall e, e ∈ without_id product_id products <->
                  e ∈ products /\ forall p, e = PDict p -> p_id p <> Some product_id)
    /\ forall other, other <> product_id ->
         _find_product (without_id product_id products) other
         = _find_product products other.
Proof.
  unfold api_delete_product, session_get.
  destruct (session w !! "user_email") as [current |] eqn:Hsess; simpl; [| done].
  destruct (Py.truthy current) eqn:Tcur; simpl; [| done].
  destruct (_find_product products product_id) as [product |] eqn:Hfind; [| done].
  destruct (sold_by current product) eqn:Hsold; simpl; [| done].
  destruct (first_non_dict products) as [t |]; simpl; [done |].
  intros _. exists current, product.
  apply bool_decide_eq_true in Hsold.
  do 5 (split; [done |]). split; [| split].
  - apply find_product_None. intros p [_ Hid]%elem_of_without_id. by apply Hid.
  - intros e. apply elem_of_without_id.
  - intros other Hne. by apply find_product_without_other.
Qed.

(** X24: a delete that is not answered 200 - from a client without
    principal (401), for an id no product has (404), by somebody who is
    not the seller (403), or on a file holding an element that is not an
    object (400) - leaves the file exactly as it is. *)
Theorem delete_product_refused (product_id : string) (w : World)
    (products : list pentry) :
  shop_status (fst (api_delete_product product_id w products)) <> 200 ->
  snd (api_delete_product product_id w products) = products
  /\ (truthy_str (session_get w) = false ->
      shop_status (fst (api_delete_product product_id w products)) = 401)
  /\ (truthy_str (session_get w) = true ->
      _find_product products product_id = None ->
      shop_status (fst (api_delete_product product_id w products)) = 404)
  /\ (forall product,
        truthy_str (session_get w) = true ->
        _find_product products product_id = Some product ->
        p_sellerEmail product <> Some (default "" (session_get w)) ->
        shop_status (fst (api_delete_product product_id w products)) = 403).
Proof.
  unfold api_delete_product, session_get.
  destruct (truthy_str (session w !! "user_email")) eqn:Hsess; simpl.
  2: { intros _. by repeat split. }
  destruct (_find_product products product_id) as [product |] eqn:Hfind.
  2: { intros _. by repeat split. }
  destruct (sold_by _ product) eqn:Hsold; simpl.
  - destruct (first_non_dict products) as [t |]; simpl; [| done].
    intros _. repeat split; try done.
    intros product' _ [= <-] Hne. by apply bool_decide_eq_true in Hsold.
  - intros _. by repeat split.
Qed.

Lemma in_category_no_filter (cat sub : string) (p : product) :
  Py.truthy cat = false -> Py.truthy sub = false -> in_category cat sub p = true.
Proof. intros Hcat Hsub. unfold in_category. by rewrite Hcat, Hsub. Qed.

Lemma elem_of_filtered (cat sub : string) (products : list pentry) (e : pentry) :
  e ∈ filtered cat sub products <->
  exists p, e = PDict p /\ PDict p ∈ products /\ in_category cat sub p = true.
Proof.
  induction products as [| [q | t] products IH]; simpl.
  - split; [intros Hin | intros (p & _ & Hin & _)]; by apply elem_of_nil in Hin.
  - destruct (in_category cat sub q) eqn:Hq.
    + rewrite elem_of_cons, IH. split.
      * intros [-> | (p & -> & Hin & Hp)].
        -- exists q. split; [done |]. split; [left | done].
        -- exists p. split; [done |]. split; [by right | done].
      * intros (p & -> & [[= ->] | Hin]%elem_of_cons & Hp); [by left |].
        right. by exists p.
    + rewrite IH. split.
      * intros (p & -> & Hin & Hp). exists p. split; [done |]. split; [by right | done].
      * intros (p & -> & [[= ->] | Hin]%elem_of_cons & Hp); [congruence |].
        by exists p.
  - rewrite IH. split.
    + intros (p & -> & Hin & Hp). exists p. split; [done |]. split; [by right | done].
    + intros (p & -> & [[=] | Hin]%elem_of_cons & Hp). by exists p.
Qed.

Lemma elem_of_computed_dict (clock : nat -> Q) (n : nat) (current_email : string)
    (products : list pentry) (p' : product) :
  PDict p' ∈ computed clock n current_email products ->
  exists p t, PDict p ∈ products
    /\ p' = set_defaults t (set_canDelete (sold_by current_email p) p).
Proof.
  revert n. induction products as [| [q | t] products IH]; intros n; simpl.
  - intros Hin. by apply elem_of_nil in Hin.
  - intros [[= ->] | Hin]%elem_of_cons.
    + exists q, (int_of (clock n)). split; [left | done].
    + destruct (IH _ Hin) as (p & t & Hp & ->). exists p, t. split; [by right | done].
  - intros [[=] | Hin]%elem_of_cons.
    destruct (IH _ Hin) as (p & t' & Hp & ->). exists p, t'. split; [by right | done].
Qed.

Lemma computed_dict_elem_of (clock : nat -> Q) (n : nat) (current_email : string)
    (products : list pentry) (p : product) :
  PDict p ∈ products ->
  exists t, PDict (set_defaults t (set_canDelete (sold_by current_email p) p))
            ∈ computed clock n current_email products.
Proof.
  revert n. induction products as [| [q | t] products IH]; intros n; simpl.
  - intros Hin. by apply elem_of_nil in Hin.
  - intros [[= ->] | Hin]%elem_of_cons.
    + exists (int_of (clock n)). left.
    + destruct (IH (S n) Hin) as (t & Ht). exists t. by right.
  - intros [[=] | Hin]%elem_of_cons.
    destruct (IH n Hin) as (t' & Ht). exists t'. by right.
Qed.

Lemma elem_of_computed_other (clock : nat -> Q) (n : nat) (current_email : string)
    (products : list pentry) (t : string) :
  PNotDict t ∈ computed clock n current_email products <-> PNotDict t ∈ products.
Proof.
  revert n. induction products as [| [q | t'] products IH]; intros n; simpl.
  - done.
  - rewrite !elem_of_cons, IH. split; (intros [[=] | Hin]; by right).
  - rewrite !elem_of_cons, IH. done.
Qed.

Lemma computed_length (clock : nat -> Q) (n : nat) (current_email : string)
    (products : list pentry) :
  List.length (computed clock n current_email products) = List.length products.
Proof.
  revert n. induction products as [| [q | t] products IH]; intros n; simpl;
    [done | by rewrite IH | by rewrite IH].
Qed.

(** X25: the listing always answers 200.  Every listed object is a
    stored object that passes the category and subcategory test (on the
    trimmed query arguments; an absent or blank argument passes
    everything), shown with the ten defaults filled in and with
    [canDelete] recomputed - whatever the file says - as: the stored
    seller email is the principal of the client; and every stored
    object that passes the test is listed.  So a listed object with
    [canDelete] true is sold by the principal, and an object stored
    without seller email is never deletable, not even for a client
    without principal, to whom it is shown with the empty seller email.
    Elements that are not objects are listed exactly when no filter is
    given. *)
Theorem products_listing (clock : nat -> Q) (cat_arg sub_arg : option string)
    (w : World) (products : list pentry) :
  let cat := Py.strip (default "" cat_arg) in
  let sub := Py.strip (default "" sub_arg) in
  let current_email := default "" (session_get w) in
  exists items,
    api_get_products clock cat_arg sub_arg w products = ShopResponse (Items items) 200
    /\ (forall p', PDict p' ∈ items ->
          exists p t, PDict p ∈ products /\ in_category cat sub p = true
            /\ p' = set_defaults t (set_canDelete (sold_by current_email p) p))
    /\ (forall p, PDict p ∈ products -> in_category cat sub p = true ->
          exists t, PDict (set_defaults t (set_canDelete (sold_by current_email p) p))
                    ∈ items)
    /\ (forall p', PDict p' ∈ items ->
          in_category cat sub p' = true
          /\ (p_canDelete p' = Some true -> p_sellerEmail p' = Some current_email)
          /\ (p_canDelete p' = Some true \/ p_canDelete p' = Some false)
          /\ is_Some (p_id p') /\ is_Some (p_name p') /\ is_Some (p_sellerName p')
          /\ is_Some (p_sellerEmail p') /\ is_Some (p_created_at p'))
    /\ (forall p, PDict p ∈ products -> in_category cat sub p = true ->
          p_sellerEmail p = None ->
          exists t, PDict (set_defaults t (set_canDelete false p)) ∈ items)
    /\ (forall t, PNotDict t ∈ items <->
          PNotDict t ∈ products /\ Py.truthy cat = false /\ Py.truthy sub = false).
Proof.
  intros cat sub current_email. eexists. split; [reflexivity |].
  fold cat sub. unfold session_get in current_email. fold current_email.
  set (chosen := if Py.truthy cat || Py.truthy sub then filtered cat sub products
                 else products).
  assert (forall p, PDict p ∈ chosen <->
                    PDict p ∈ products /\ in_category cat sub p = true) as Hchosen.
  { intros p. unfold chosen.
    destruct (Py.truthy cat) eqn:Hcat; [| destruct (Py.truthy sub) eqn:Hsub]; simpl.
    - rewrite elem_of_filtered. split; [by intros (q & [= <-] & Hq) | intros Hp; by exists p].
    - rewrite elem_of_filtered. split; [by intros (q & [= <-] & Hq) | intros Hp; by exists p].
    - split; [| by intros [Hin _]]. intros Hin. split; [done |].
      by apply in_category_no_filter. }
  assert (forall p', PDict p' ∈ computed clock 0 current_email chosen ->
            exists p t, PDict p ∈ products /\ in_category cat sub p = true
              /\ p' = set_defaults t (set_canDelete (sold_by current_email p) p)) as Hsound.
  { intros p' (p & t & Hin & ->)%elem_of_computed_dict.
    apply Hchosen in Hin as [Hin Hcat]. by exists p, t. }
  split; [exact Hsound |]. split; [| split; [| split]].
  - intros p Hin Hcat. apply computed_dict_elem_of. by apply Hchosen.
  - intros p' (p & t & Hin & Hcat & ->)%Hsound. split; [exact Hcat |].
    split.
    { simpl. intros [= Hsold]. apply bool_decide_eq_true in Hsold. by rewrite Hsold. }
    split; [simpl; destruct (sold_by current_email p); [by left | by right] |].
    by repeat split.
  - intros p Hin Hcat Hnone.
    destruct (computed_dict_elem_of clock 0 current_email chosen p) as (t & Ht).
    { by apply Hchosen. }
    exists t. replace false with (sold_by current_email p); [done |].
    unfold sold_by. rewrite Hnone. by apply bool_decide_eq_false.
  - intros t. rewrite elem_of_computed_other. unfold chosen.
    destruct (Py.truthy cat) eqn:Hcat; [| destruct (Py.truthy sub) eqn:Hsub]; simpl.
    + rewrite elem_of_filtered. split; [by intros (q & [=] & _) | by intros (_ & ? & _)].
    + rewrite elem_of_filtered. split; [by intros (q & [=] & _) | by intros (_ & _ & ?)].
    + split; [done | by intros [? _]].
Qed.

Section Exists.
Context `{Werkzeug}.


End Exists.






(** ** The product properties at sample inputs *)


Lemma delete_product_only_by_seller_sample :
  api_delete_product "p1" Sample.session_world Stall.shelf
  = (ShopResponse Deleted 200, [PDict Stall.mug; PDict Stall.ink]).
Proof.
  destruct (delete_product_only_by_seller "p1" Sample.session_world Stall.shelf)
    as (current & product & _ & _ & _ & _ & Hdelete & _); [reflexivity |].
  exact Hdelete.
Defined.

Lemma delete_product_refused_sample :
  snd (api_delete_product "p3" Sample.session_world Stall.shelf) = Stall.shelf
  /\ shop_status (fst (api_delete_product "p3" Sample.session_world Stall.shelf)) = 403.
Proof.
  destruct (delete_product_refused "p3" Sample.session_world Stall.shelf)
    as (Hkept & _ & _ & Hforbidden); [vm_compute; lia |].
  split; [exact Hkept |].
  apply (Hforbidden Stall.ink); [reflexivity | reflexivity |].
  vm_compute. discriminate.
Defined.


